(** * Crop-analysis pipeline: credential selection, retrying executor,
      response normalizer and photo scheduler

    A shallow embedding of [services/geminiService.js],
    [services/cropTrackingService.js] and of the key-rotation part of the
    server file, followed by the properties proved about them.

    Conventions of the embedding.
    - A JavaScript string is the Rocq [string] of its UTF-8 bytes.  Every
      character the code inspects itself (braces, the keywords of the
      scheduler, property names) is ASCII, so searching and comparing bytes
      agrees with searching and comparing UTF-16 code units.
    - A JavaScript number is an IEEE-754 binary64 value, [spec_float] with
      precision 53 and maximal exponent 1024, computed with the rounding
      functions of the standard library.
    - A JavaScript value is one of the values [JSON.parse] can build, plus
      [undefined]: everything the pipeline handles comes out of a JSON
      document.
    - A function that may throw returns a [Completion]; a function with
      effects (clock, rotation counter, network, timers) is a state
      transformer over [World].
    - Built-in functions of the platform whose algorithms are not part of this
      repository ([JSON.parse], number/string conversions, case mapping, the
      calendar methods of [Date]) are fields of the class [JsRuntime]; every
      theorem holds for every runtime, and [ref_runtime] is an executable
      instance used to evaluate concrete inputs. *)

From Stdlib Require Import ZArith NArith List String Ascii Bool Lia.
From Stdlib Require Import SpecFloat DecimalString.
Import ListNotations.

Set Warnings "-register-all".

Local Open Scope list_scope.
Local Open Scope string_scope.
Local Open Scope Z_scope.

(* ================================================================= *)
(** ** Completions: normal return or thrown error *)

(** An [Error] object as far as the code looks at it: its constructor name
    and its [message]. *)
Record JsError : Type := mkError { err_name : string; err_message : string }.

Definition Error (msg : string) : JsError := mkError "Error" msg.
Definition TypeError (msg : string) : JsError := mkError "TypeError" msg.
Definition SyntaxError (msg : string) : JsError := mkError "SyntaxError" msg.

Inductive Completion (A : Type) : Type :=
| Normal (a : A)
| Throw (e : JsError).
Arguments Normal {A} a.
Arguments Throw {A} e.

Definition cbind {A B} (c : Completion A) (k : A -> Completion B) : Completion B :=
  match c with
  | Normal a => k a
  | Throw e => Throw e
  end.

(** [try { c } catch (error) { h error }] for code without effects. *)
Definition ctry {A} (c : Completion A) (h : JsError -> Completion A) : Completion A :=
  match c with
  | Normal a => Normal a
  | Throw e => h e
  end.

Declare Scope completion_scope.
Delimit Scope completion_scope with cpl.
Notation "x <- c ;; k" := (cbind c (fun x => k))
  (at level 61, c at next level, right associativity) : completion_scope.

(* ================================================================= *)
(** ** Numbers *)

Module Num.

Definition t : Type := spec_float.

Definition prec : Z := 53.
Definition emax : Z := 1024.

Definition NaN : t := S754_nan.

(** The number denoted by an integer literal. *)
Definition of_Z (z : Z) : t := binary_normalize prec emax z 0 false.

(** The number nearest to [(-1)^neg * m * 10^e] (ties to even), the value
    of a decimal literal. *)
Definition of_decimal (neg : bool) (m : N) (e : Z) : t :=
  match m with
  | N0 => S754_zero neg
  | Npos p =>
      if 0 <=? e then binary_round prec emax neg (p * Z.to_pos (10 ^ e)) 0
      else
        let '(q, e', l) := SFdiv_core_binary prec emax (Zpos p) 0 (10 ^ (- e)) 0 in
        binary_round_aux prec emax neg q e' l
  end.

Definition add : t -> t -> t := SFadd prec emax.
Definition sub : t -> t -> t := SFsub prec emax.

(** [a < b] and [a <= b] of the language: false as soon as one side is NaN. *)
Definition ltb : t -> t -> bool := SFltb.
Definition leb : t -> t -> bool := SFleb.

Definition is_nan (x : t) : bool :=
  match x with S754_nan => true | _ => false end.

Definition is_zero (x : t) : bool :=
  match x with S754_zero _ => true | _ => false end.

(** ToBoolean on a number: [+0], [-0] and [NaN] are falsy. *)
Definition truthy (x : t) : bool := negb (is_zero x || is_nan x).

(** [Math.min] and [Math.max] on two numbers: NaN is contagious and
    [-0] is below [+0]. *)
Definition min (a b : t) : t :=
  if is_nan a || is_nan b then NaN
  else if ltb a b then a
  else if ltb b a then b
  else match a, b with
       | S754_zero false, S754_zero true => b
       | _, _ => a
       end.

Definition max (a b : t) : t :=
  if is_nan a || is_nan b then NaN
  else if ltb a b then b
  else if ltb b a then a
  else match a, b with
       | S754_zero true, S754_zero false => b
       | _, _ => a
       end.

(** [lo <= x <= hi]; false for NaN. *)
Definition within (lo hi x : t) : bool := leb lo x && leb x hi.

Definition zero : t := Eval vm_compute in of_Z 0.
Definition one : t := Eval vm_compute in of_Z 1.
Definition two : t := Eval vm_compute in of_Z 2.
Definition three : t := Eval vm_compute in of_Z 3.
Definition four : t := Eval vm_compute in of_Z 4.
Definition seven : t := Eval vm_compute in of_Z 7.
Definition fifty : t := Eval vm_compute in of_Z 50.
Definition seventy : t := Eval vm_compute in of_Z 70.
Definition hundred : t := Eval vm_compute in of_Z 100.

End Num.

(* ================================================================= *)
(** ** Values *)

Inductive JsValue : Type :=
| JUndefined
| JNull
| JBool (b : bool)
| JNumber (x : Num.t)
| JString (s : string)
| JArray (elems : list JsValue)
| JObject (props : list (string * JsValue)).

(** ToBoolean. *)
Definition truthy (v : JsValue) : bool :=
  match v with
  | JUndefined | JNull => false
  | JBool b => b
  | JNumber x => Num.truthy x
  | JString s => negb (String.eqb s EmptyString)
  | JArray _ | JObject _ => true
  end.

(** [a || b] where evaluating [b] has no effect. *)
Definition js_or (a b : JsValue) : JsValue := if truthy a then a else b.

Definition isArray (v : JsValue) : bool :=
  match v with JArray _ => true | _ => false end.

(** The double quote and the backslash. *)
Definition quote : ascii := "034"%char.
Definition backslash : ascii := "092"%char.

(** Own property of an object built by [JSON.parse]. *)
Fixpoint own_property (props : list (string * JsValue)) (key : string) : option JsValue :=
  match props with
  | [] => None
  | (k, v) :: rest => if String.eqb k key then Some v else own_property rest key
  end.

Definition has_own (props : list (string * JsValue)) (key : string) : bool :=
  match own_property props key with Some _ => true | None => false end.

(* ================================================================= *)
(** ** The platform *)

(** A [Date] object: its time value in milliseconds since the epoch, or the
    invalid date. *)
Inductive JsDate : Type :=
| DateAt (ms : Z)
| InvalidDate.

(** TimeClip: time values beyond 8.64e15 ms are invalid. *)
Definition new_Date (ms : Z) : JsDate :=
  if Z.abs ms <=? 8640000000000000 then DateAt ms else InvalidDate.

Class JsRuntime : Type := {
  (** [JSON.parse(text)]: the value, or a thrown [SyntaxError]. *)
  JSON_parse : string -> Completion JsValue;
  (** StringToNumber, the numeric value of a string ([NaN] when it is not a
      numeric literal). *)
  StringToNumber : string -> Num.t;
  (** Number::toString in radix 10. *)
  Number_toString : Num.t -> string;
  (** [s.toLowerCase()] and [s.trim()]. *)
  String_toLowerCase : string -> string;
  String_trim : string -> string;
  (** [s[i]]: the one-code-unit string at index [i], or [undefined]. *)
  String_at : string -> nat -> JsValue;
  (** [d.getDate()] and the date [d] becomes after [d.setDate(n)], both in
      the time zone of the host. *)
  Date_getDate : JsDate -> Num.t;
  Date_setDate : JsDate -> Num.t -> JsDate
}.

Section Coercions.
Context {R : JsRuntime}.

Definition cannot_convert : JsError :=
  TypeError "Cannot convert object to primitive value".

(** ToString.  An array is joined with commas, [null] and [undefined]
    elements printing as nothing ([Array.prototype.join]).  A plain object
    prints through [Object.prototype.toString], unless the document gave it
    an own property [toString]: that value is not callable, the inherited
    [valueOf] returns the object itself, and OrdinaryToPrimitive throws. *)
Fixpoint ToString (v : JsValue) : Completion string :=
  match v with
  | JUndefined => Normal "undefined"
  | JNull => Normal "null"
  | JBool true => Normal "true"
  | JBool false => Normal "false"
  | JNumber x => Normal (Number_toString x)
  | JString s => Normal s
  | JArray elems =>
      (fix join (l : list JsValue) : Completion string :=
         match l with
         | [] => Normal EmptyString
         | x :: rest =>
             (s <- match x with
                   | JUndefined | JNull => Normal EmptyString
                   | _ => ToString x
                   end ;;
              match rest with
              | [] => Normal s
              | _ :: _ => r <- join rest ;; Normal (s ++ "," ++ r)
              end)%cpl
         end) elems
  | JObject props =>
      if has_own props "toString" then Throw cannot_convert
      else Normal "[object Object]"
  end.

(** ToNumber.  Arrays and objects go through ToPrimitive with hint number:
    the inherited [valueOf] returns the object itself, so the result is the
    number read from the string of the object. *)
Definition ToNumber (v : JsValue) : Completion Num.t :=
  match v with
  | JUndefined => Normal Num.NaN
  | JNull => Normal Num.zero
  | JBool true => Normal Num.one
  | JBool false => Normal Num.zero
  | JNumber x => Normal x
  | JString s => Normal (StringToNumber s)
  | JArray _ | JObject _ => (s <- ToString v ;; Normal (StringToNumber s))%cpl
  end.

(** ToPropertyKey, for the values at hand (no symbols). *)
Definition ToPropertyKey (v : JsValue) : Completion string := ToString v.

(** [Math.min(a, b)] and [Math.max(a, b)]: both arguments are coerced,
    left to right, before they are compared. *)
Definition Math_min (a b : JsValue) : Completion Num.t :=
  (x <- ToNumber a ;; y <- ToNumber b ;; Normal (Num.min x y))%cpl.

Definition Math_max (a b : JsValue) : Completion Num.t :=
  (x <- ToNumber a ;; y <- ToNumber b ;; Normal (Num.max x y))%cpl.

(** Decimal index denoted by a property name, for the names [0] .. [9]. *)
Definition index_of_key (key : string) : option nat :=
  match key with
  | String c EmptyString =>
      let n := nat_of_ascii c in
      if ((48 <=? n) && (n <=? 57))%nat then Some (n - 48)%nat else None
  | _ => None
  end.

(** The property read [v.key] (or [v[key]]) for the names this code reads:
    [candidates], [0], [content], [parts], [text], [parsed],
    [rawResponse], [match], [toLowerCase], the fields of an analysis and
    those of the crop information.
    None of them is defined by a built-in prototype, so the read yields an
    own property or [undefined]; reading from [undefined] or [null]
    throws. *)
Definition js_get (v : JsValue) (key : string) : Completion JsValue :=
  match v with
  | JUndefined =>
      Throw (TypeError ("Cannot read properties of undefined (reading '" ++ key ++ "')"))
  | JNull =>
      Throw (TypeError ("Cannot read properties of null (reading '" ++ key ++ "')"))
  | JBool _ | JNumber _ => Normal JUndefined
  | JString s =>
      match index_of_key key with
      | Some i => Normal (String_at s i)
      | None => Normal JUndefined
      end
  | JArray elems =>
      match index_of_key key with
      | Some i => Normal (nth i elems JUndefined)
      | None => Normal JUndefined
      end
  | JObject props =>
      match own_property props key with
      | Some x => Normal x
      | None => Normal JUndefined
      end
  end.

End Coercions.

(* ================================================================= *)
(** ** The world: clock, rotation counter, network and timers *)

(** One part of the request content. *)
Inductive Part : Type :=
| TextPart (text : string)
| InlineData (mimeType data : string).

(** The body posted to the provider. *)
Record Payload : Type := mkPayload {
  parts : list Part;
  temperature : Num.t;
  topK : Num.t;
  topP : Num.t;
  maxOutputTokens : Num.t
}.

(** What the program does to the outside, in order. *)
Inductive Event : Type :=
| Post (url : string) (payload : Payload)
| Sleep (ms : Z).

(** Outcome of one [axios.post]: the promise resolves with a response whose
    body is [data], or rejects (network failure, status outside 2xx, the
    30000 ms timeout). *)
Inductive AxiosOutcome : Type :=
| Resolved (data : JsValue)
| Rejected (error : JsError).

(** The provider: the outcome of the [n]-th post of the process, given what
    was posted. *)
Definition Upstream : Type := nat -> string -> Payload -> AxiosOutcome.

(** The state the code reads and changes.  The clock moves with the timers
    of the program only: how long a request is in flight is left out, no
    statement below depends on it. *)
Record World : Type := mkWorld {
  now : Z;                 (* Date.now(), in ms *)
  rotationCounter : N;     (* module variable of the server *)
  trace : list Event       (* posts and timers so far, oldest first *)
}.

Definition posts_made (t : list Event) : nat :=
  List.length (filter (fun ev => match ev with Post _ _ => true | Sleep _ => false end) t).

Definition IO (A : Type) : Type := World -> Completion A * World.

Definition ret {A} (a : A) : IO A := fun w => (Normal a, w).
Definition throw {A} (e : JsError) : IO A := fun w => (Throw e, w).
Definition lift {A} (c : Completion A) : IO A := fun w => (c, w).

Definition bind {A B} (m : IO A) (k : A -> IO B) : IO B :=
  fun w =>
    match m w with
    | (Normal a, w') => k a w'
    | (Throw e, w') => (Throw e, w')
    end.

(** [try { body } catch (error) { handler error }]: the effects of the body
    up to the throw stay. *)
Definition try_catch {A} (body : IO A) (handler : JsError -> IO A) : IO A :=
  fun w =>
    match body w with
    | (Normal a, w') => (Normal a, w')
    | (Throw e, w') => handler e w'
    end.

Declare Scope io_scope.
Delimit Scope io_scope with io.
Notation "x <- c ;; k" := (bind c (fun x => k))
  (at level 61, c at next level, right associativity) : io_scope.
Notation "c ;;; k" := (bind c (fun _ => k))
  (at level 61, right associativity) : io_scope.

(** [Date.now()]. *)
Definition Date_now : IO Z := fun w => (Normal (now w), w).

(** [await new Promise(resolve => setTimeout(resolve, ms))]. *)
Definition setTimeout (ms : Z) : IO unit :=
  fun w => (Normal tt, mkWorld (now w + ms) (rotationCounter w) (trace w ++ [Sleep ms])%list).

(** Configuration read from [process.env]. *)
Record ProcessEnv : Type := mkEnv {
  GEMINI_API_KEY : option string;
  GEMINI_API_KEY_1 : option string;
  GEMINI_API_KEY_2 : option string;
  GEMINI_API_KEY_3 : option string;
  GEMINI_API_KEY_4 : option string;
  GEMINI_API_KEY_5 : option string
}.

(** A configuration value inside a template literal: an unset variable
    prints as [undefined]. *)
Definition env_text (v : option string) : string :=
  match v with Some s => s | None => "undefined" end.

Definition generateContent_url (model key : string) : string :=
  "https://generativelanguage.googleapis.com/v1beta/models/" ++ model
    ++ ":generateContent?key=" ++ key.

(* ================================================================= *)
(** ** services/geminiService.js *)

(** Rest of [s] after its first [c]. *)
Fixpoint after_first (c : ascii) (s : string) : option string :=
  match s with
  | EmptyString => None
  | String a rest => if Ascii.eqb a c then Some rest else after_first c rest
  end.

(** Prefix of [s] that ends with the last [c] of [s]. *)
Fixpoint through_last (c : ascii) (s : string) : option string :=
  match s with
  | EmptyString => None
  | String a rest =>
      match through_last c rest with
      | Some p => Some (String a p)
      | None => if Ascii.eqb a c then Some (String a EmptyString) else None
      end
  end.

(** [text.match(/\{[\s\S]*\}/)]: [null], or the match at index 0.  The
    pattern is tried from the leftmost position, where it needs an opening
    brace; the star is greedy over every character, so the match ends at the
    last closing brace behind that opening brace.  When the first opening
    brace has no closing brace behind it, no later one has. *)
Definition match_braces (text : string) : option string :=
  match after_first "{" text with
  | Some rest =>
      match through_last "}" rest with
      | Some body => Some (String "{" body)
      | None => None
      end
  | None => None
  end.

Section GeminiService.
Context {R : JsRuntime} (env : ProcessEnv) (upstream : Upstream).

(** [await axios.post(url, payload, { headers, timeout: 30000 })], giving
    [response.data]. *)
Definition axios_post (url : string) (payload : Payload) : IO JsValue :=
  fun w =>
    let w' := mkWorld (now w) (rotationCounter w) (trace w ++ [Post url payload])%list in
    match upstream (posts_made (trace w)) url payload with
    | Resolved data => (Normal data, w')
    | Rejected error => (Throw error, w')
    end.

(** [response.data.candidates[0].content.parts[0].text]. *)
Definition response_text (data : JsValue) : Completion JsValue :=
  (candidates <- js_get data "candidates" ;;
   candidate <- js_get candidates "0" ;;
   content <- js_get candidate "content" ;;
   parts <- js_get content "parts" ;;
   part <- js_get parts "0" ;;
   js_get part "text")%cpl.

Record Options : Type := mkOptions {
  opt_temperature : option Num.t;
  opt_maxTokens : option Num.t;
  opt_model : option string
}.


Definition default {A} (o : option A) (d : A) : A :=
  match o with Some a => a | None => d end.

(** [if (imageBase64)]: a string other than the empty one. *)
Definition image_parts (imageBase64 : option string) : list Part :=
  match imageBase64 with
  | Some data =>
      if String.eqb data EmptyString then []
      else [InlineData "image/jpeg" data]
  | None => []
  end.

Definition build_payload (prompt : string) (imageBase64 : option string)
           (temperature maxTokens : Num.t) : Payload :=
  mkPayload (TextPart prompt :: image_parts imageBase64)
            temperature (Num.of_Z 32) (Num.of_Z 1) maxTokens.

(** One attempt, in both executors:
    [const response = await axios.post(...); return response.data. ... .text]. *)
Definition one_attempt (url : string) (payload : Payload) : IO JsValue :=
  (data <- axios_post url payload ;; lift (response_text data))%io.

(** The loop [for (let attempt = 0; attempt < 3; attempt++)], with [left]
    iterations to go: [attempt = 3 - left]. *)
Fixpoint attempt_loop (url : string) (payload : Payload)
         (left : nat) (lastError : option JsError) : IO JsValue :=
  match left with
  | O =>
      match lastError with
      | Some e => throw (Error ("Gemini API failed after 3 attempts: " ++ err_message e))
      | None => throw (TypeError "Cannot read properties of undefined (reading 'message')")
      end
  | S left' =>
      let attempt := 3 - Z.of_nat left in
      try_catch
        (one_attempt url payload)
        (fun error =>
           ((if attempt <? 2 then setTimeout (1000 * (attempt + 1)) else ret tt) ;;;
            attempt_loop url payload left' (Some error))%io)
  end.

Definition analyzeWithGemini (prompt : string) (imageBase64 : option string)
           (options : Options) : IO JsValue :=
  let temperature := default (opt_temperature options) (Num.of_decimal false 4 (-1)) in
  let maxTokens := default (opt_maxTokens options) (Num.of_Z 4096) in
  let model := default (opt_model options) "gemini-2.0-flash" in
  let url := generateContent_url model (env_text (GEMINI_API_KEY env)) in
  let payload := build_payload prompt imageBase64 temperature maxTokens in
  attempt_loop url payload 3 None.

(** [rawResponse.match(...)]: a method call, so it throws on anything but
    a string. *)
Definition call_match (rawResponse : JsValue) : Completion (option string) :=
  match rawResponse with
  | JString text => Normal (match_braces text)
  | _ =>
      (_ <- js_get rawResponse "match" ;;
       Throw (TypeError "rawResponse.match is not a function"))%cpl
  end.

Definition unparsed (rawResponse : JsValue) : list (string * JsValue) :=
  [("rawResponse", rawResponse); ("parsed", JBool false)].

Definition parseGeminiResponse (rawResponse : JsValue) : Completion JsValue :=
  ctry
    (jsonMatch <- call_match rawResponse ;;
     match jsonMatch with
     | Some text => JSON_parse text
     | None => Normal (JObject (unparsed rawResponse))
     end)%cpl
    (fun error =>
       Normal (JObject (unparsed rawResponse ++ [("error", JString (err_message error))])%list)).

End GeminiService.

(* ================================================================= *)
(** ** services/cropTrackingService.js *)

(** The analysis object handed to the route and to the scheduler. *)
Record Analysis : Type := mkAnalysis {
  healthScore : Num.t;
  growthStage : JsValue;
  issues : list JsValue;
  observations : JsValue;
  recommendations : list JsValue;
  nextPhotoDate : option JsDate;      (* [None] is [null] *)
  nextPhotoDays : Num.t;
  urgency : string
}.

(** The object returned by [calculateNextPhotoDate]. *)
Record Schedule : Type := mkSchedule {
  sched_nextPhotoDate : JsDate;
  sched_nextPhotoDays : Num.t;
  sched_urgency : string
}.

(** [Array.isArray(v) ? v : d]. *)
Definition array_or (v : JsValue) (d : list JsValue) : list JsValue :=
  match v with JArray elems => elems | _ => d end.

(** [['routine', 'important', 'critical', 'urgent'].includes(v) ? v : 'routine']. *)
Definition urgency_or_routine (v : JsValue) : string :=
  match v with
  | JString s =>
      if existsb (String.eqb s) ["routine"; "important"; "critical"; "urgent"]
      then s else "routine"
  | _ => "routine"
  end.

(** [hay.includes(needle)]. *)
Fixpoint includes (hay needle : string) : bool :=
  String.prefix needle hay ||
  match hay with
  | EmptyString => false
  | String _ rest => includes rest needle
  end.

(** The record built when the response could not be parsed. *)
Definition degraded_record (observations : JsValue) : Analysis :=
  mkAnalysis Num.fifty (JString "unknown") [JString "Unable to parse AI response"]
             observations [JString "Manual review needed"] None Num.three "important".

(** The record built when the analysis call failed; [at_ms] is the clock
    reading inside the handler. *)
Definition unavailable_record (at_ms : Z) : Analysis :=
  mkAnalysis Num.fifty (JString "unknown")
             [JString "Analysis failed - manual review needed"]
             (JString "AI analysis unavailable")
             [JString "Upload photo again"; JString "Check image quality"]
             (Some (new_Date (at_ms + 3 * 24 * 60 * 60 * 1000)))
             Num.three "important".

(** Own keys of the literal [stageAdjustments]. *)
Definition stageAdjustments : list (string * Num.t) :=
  [("germination", Num.of_Z 1); ("flowering", Num.of_Z (-1));
   ("fruiting", Num.of_Z (-1)); ("maturity", Num.of_Z 1)].

(** Property names every object literal inherits from [Object.prototype]. *)
Definition Object_prototype_names : list string :=
  ["constructor"; "__defineGetter__"; "__defineSetter__"; "hasOwnProperty";
   "__lookupGetter__"; "__lookupSetter__"; "isPrototypeOf";
   "propertyIsEnumerable"; "toString"; "valueOf"; "__proto__"; "toLocaleString"].

Fixpoint assoc {A} (l : list (string * A)) (key : string) : option A :=
  match l with
  | [] => None
  | (k, a) :: rest => if String.eqb k key then Some a else assoc rest key
  end.

Section CropTrackingService.
Context {R : JsRuntime} (env : ProcessEnv) (upstream : Upstream).
(** [buildGrowthAnalysisPrompt]: the wording of the prompt is not modelled;
    whatever text it builds, or error it throws while printing its
    arguments, the rest of the pipeline treats alike. *)
Variable buildGrowthAnalysisPrompt :
  JsValue -> JsValue -> JsValue -> JsValue -> Completion string.

Definition formatAnalysisForStorage (geminiResponse : JsValue) (dayNumber : JsValue)
  : Completion Analysis :=
  (parsed <- js_get geminiResponse "parsed" ;;
   if negb (truthy parsed) && negb (match parsed with JBool false => true | _ => false end)
   then
     let analysis := geminiResponse in
     hs <- js_get analysis "healthScore" ;;
     capped <- Math_min (JNumber Num.hundred) (js_or hs (JNumber Num.fifty)) ;;
     score <- Math_max (JNumber Num.zero) (JNumber capped) ;;
     stage <- js_get analysis "growthStage" ;;
     iss <- js_get analysis "issues" ;;
     obs <- js_get analysis "observations" ;;
     recs <- js_get analysis "recommendations" ;;
     npd <- js_get analysis "nextPhotoDays" ;;
     dcapped <- Math_min (JNumber Num.seven) (js_or npd (JNumber Num.four)) ;;
     days <- Math_max (JNumber Num.one) (JNumber dcapped) ;;
     urg <- js_get analysis "urgency" ;;
     Normal (mkAnalysis score
                        (js_or stage (JString "unknown"))
                        (array_or iss [])
                        (js_or obs (JString "No observations available"))
                        (array_or recs [JString "Monitor plant growth"])
                        None
                        days
                        (urgency_or_routine urg))
   else
     raw <- js_get geminiResponse "rawResponse" ;;
     Normal (degraded_record (js_or raw (JString "Analysis unavailable"))))%cpl.

(** [const { cropType = 'unknown', dayNumber = 1, language = 'en' } = cropInfo]:
    one property with its default. *)
Definition destructure (obj : JsValue) (key : string) (d : JsValue) : Completion JsValue :=
  (v <- js_get obj key ;;
   Normal (match v with JUndefined => d | _ => v end))%cpl.

Definition analyzeGrowthPhoto (cropId : JsValue) (imageBase64 : option string)
           (previousPhotoSummary : JsValue) (cropInfo : JsValue) : IO Analysis :=
  let cropInfo := match cropInfo with JUndefined => JObject [] | _ => cropInfo end in
  let previousPhotoSummary :=
    match previousPhotoSummary with JUndefined => JNull | _ => previousPhotoSummary end in
  try_catch
    (cropType <- lift (destructure cropInfo "cropType" (JString "unknown")) ;;
     dayNumber <- lift (destructure cropInfo "dayNumber" (JNumber Num.one)) ;;
     language <- lift (destructure cropInfo "language" (JString "en")) ;;
     prompt <- lift (buildGrowthAnalysisPrompt cropType dayNumber previousPhotoSummary language) ;;
     rawResponse <- analyzeWithGemini env upstream prompt imageBase64
                      (mkOptions None None (Some "gemini-2.0-flash")) ;;
     parsedResponse <- lift (parseGeminiResponse rawResponse) ;;
     lift (formatAnalysisForStorage parsedResponse dayNumber))%io
    (fun error =>
       (t <- Date_now ;; ret (unavailable_record t))%io).

(** What [analyzeGrowthPhoto] makes of the outcome of the analysis call, the
    text it returned or the error it threw: the statements behind the
    [await], inside the same [try], and the handler of that [try].  The
    specification calls this step normalize. *)
Definition normalize (outcome : Completion JsValue) (dayNumber : JsValue) : IO Analysis :=
  try_catch
    (rawResponse <- lift outcome ;;
     parsedResponse <- lift (parseGeminiResponse rawResponse) ;;
     lift (formatAnalysisForStorage parsedResponse dayNumber))%io
    (fun error =>
       (t <- Date_now ;; ret (unavailable_record t))%io).

(** [issue.toLowerCase().includes('disease') || ... 'pest' ... || ... 'dying']:
    the method call throws on anything but a string. *)
Definition critical_issue (issue : JsValue) : Completion bool :=
  match issue with
  | JString s =>
      Normal (includes (String_toLowerCase s) "disease"
              || includes (String_toLowerCase s) "pest"
              || includes (String_toLowerCase s) "dying")
  | _ =>
      (_ <- js_get issue "toLowerCase" ;;
       Throw (TypeError "issue.toLowerCase is not a function"))%cpl
  end.

(** [issues.some(critical_issue)]: stops at the first hit. *)
Fixpoint some_critical (l : list JsValue) : Completion bool :=
  match l with
  | [] => Normal false
  | issue :: rest =>
      (hit <- critical_issue issue ;;
       if (hit : bool) then Normal true else some_critical rest)%cpl
  end.

(** [baseDays += stageAdjustments[growthStage] || 0].  An own key adds its
    number and an unknown key adds 0.  A name inherited from
    [Object.prototype] yields a function (or, for [__proto__], an object):
    the sum is then a string that is no numeric literal, and every later
    use of it as a number reads [NaN]. *)
Definition adjust_for_stage (baseDays : Num.t) (growthStage : JsValue)
  : Completion Num.t :=
  (key <- ToPropertyKey growthStage ;;
   match assoc stageAdjustments key with
   | Some adjustment => Normal (Num.add baseDays adjustment)
   | None =>
       if existsb (String.eqb key) Object_prototype_names then Normal Num.NaN
       else Normal (Num.add baseDays Num.zero)
   end)%cpl.

(** The guard [issues && issues.length > 0] in front of the search only
    skips an empty array, on which [some] answers false. *)
Definition calculateNextPhotoDate (currentAnalysis : Analysis)
           (cropType : JsValue) (growthStage : JsValue) : IO Schedule :=
  let baseDays :=
    if Num.truthy (nextPhotoDays currentAnalysis)
    then nextPhotoDays currentAnalysis else Num.four in
  let baseDays :=
    if Num.ltb (healthScore currentAnalysis) Num.seventy
    then Num.max Num.one (Num.sub baseDays Num.one) else baseDays in
  (hasCriticalIssues <- lift (some_critical (issues currentAnalysis)) ;;
   let baseDays := if (hasCriticalIssues : bool) then Num.min Num.two baseDays else baseDays in
   baseDays <- lift (adjust_for_stage baseDays growthStage) ;;
   let finalDays := Num.max Num.one (Num.min Num.seven baseDays) in
   let urgency :=
     if Num.leb finalDays Num.two then "critical"
     else if Num.leb finalDays Num.three then "important"
     else "routine" in
   t <- Date_now ;;
   let today := new_Date t in
   ret (mkSchedule (Date_setDate today (Num.add (Date_getDate today) finalDays))
                   finalDays urgency))%io.

End CropTrackingService.

(* ================================================================= *)
(** ** The server: API key rotation *)

Section Server.
Context {R : JsRuntime} (env : ProcessEnv) (upstream : Upstream).

(** [.filter(key => key && key.trim() !== '')]. *)
Definition usable_key (key : option string) : bool :=
  match key with
  | Some k => negb (String.eqb k EmptyString) && negb (String.eqb (String_trim k) EmptyString)
  | None => false
  end.

Definition apiKeys : list string :=
  flat_map (fun key => if usable_key key then [env_text key] else [])
           [GEMINI_API_KEY_1 env; GEMINI_API_KEY_2 env; GEMINI_API_KEY_3 env;
            GEMINI_API_KEY_4 env; GEMINI_API_KEY_5 env].

Definition ROTATION_INTERVAL : N := 3.

(** [Math.floor(rotationCounter / ROTATION_INTERVAL) % apiKeys.length].  For
    a counter up to 2^53 the rounded binary64 quotient has the floor of the
    exact one. *)
Definition keyIndex (counter : N) (keys : list string) : N :=
  ((counter / ROTATION_INTERVAL) mod N.of_nat (List.length keys))%N.

(** [rotationCounter++] on a binary64 counter: exact up to 2^53, where
    adding one rounds back to 2^53. *)
Definition increment (counter : N) : N :=
  if (counter <? 2 ^ 53)%N then (counter + 1)%N else counter.

Definition getNextApiKey : IO (option string) :=
  fun w =>
    match apiKeys with
    | _ :: _ =>
        let keyIndex := keyIndex (rotationCounter w) apiKeys in
        let selectedKey := nth_error apiKeys (N.to_nat keyIndex) in
        (Normal selectedKey,
         mkWorld (now w) (increment (rotationCounter w)) (trace w))
    | [] => (Normal (GEMINI_API_KEY env), w)
    end.

(** [callGeminiAPI] of the server with rotation: one key from the pool,
    one post, no retry. *)
Definition callGeminiAPI (prompt : string) (imageBase64 : option string) : IO JsValue :=
  (key <- getNextApiKey ;;
   let url := generateContent_url "gemini-2.5-flash" (env_text key) in
   let payload := build_payload prompt imageBase64
                                (Num.of_decimal false 4 (-1)) (Num.of_Z 4096) in
   try_catch
     (one_attempt upstream url payload)
     (fun error => throw (Error "AI analysis failed")))%io.

End Server.

(* ================================================================= *)
(** ** A reference runtime

    Executable versions of the built-in functions, used to evaluate the
    pipeline on concrete inputs.  [JSON.parse], the numeric conversions and
    string indexing follow ECMA-262 on every UTF-8 text; dates are taken in
    UTC; [toLowerCase] maps the letters A-Z (which is all of the mapping on
    ASCII text and on scripts without case). *)

Module Ref.

Definition byte (n : nat) : ascii := ascii_of_nat n.
Definition code (c : ascii) : N := N_of_ascii c.
Fixpoint bytes (l : list nat) : string :=
  match l with
  | [] => EmptyString
  | n :: rest => String (byte n) (bytes rest)
  end.

(** *** UTF-8 and UTF-16 *)

(** Generalized UTF-8 of a code point (a lone surrogate takes three
    bytes). *)
Definition encode (cp : N) : string :=
  let b (n : N) := ascii_of_N n in
  (if cp <? 128 then String (b cp) EmptyString
   else if cp <? 2048 then
     String (b (192 + cp / 64)) (String (b (128 + cp mod 64)) EmptyString)
   else if cp <? 65536 then
     String (b (224 + cp / 4096))
       (String (b (128 + (cp / 64) mod 64)) (String (b (128 + cp mod 64)) EmptyString))
   else
     String (b (240 + cp / 262144))
       (String (b (128 + (cp / 4096) mod 64))
          (String (b (128 + (cp / 64) mod 64)) (String (b (128 + cp mod 64)) EmptyString))))%N.

Definition continuation (c : ascii) : bool := (128 <=? code c)%N && (code c <? 192)%N.

(** UTF-16 code units of a text. *)
Fixpoint units (s : string) : list N :=
  match s with
  | EmptyString => []
  | String a rest =>
      let one := code a :: units rest in
      (if code a <? 192 then one
       else if code a <? 224 then
         match rest with
         | String b r =>
             if continuation b then ((code a - 192) * 64 + (code b - 128)) :: units r else one
         | _ => one
         end
       else if code a <? 240 then
         match rest with
         | String b (String c r) =>
             if continuation b && continuation c
             then ((code a - 224) * 4096 + (code b - 128) * 64 + (code c - 128)) :: units r
             else one
         | _ => one
         end
       else
         match rest with
         | String b (String c (String d r)) =>
             if continuation b && continuation c && continuation d
             then
               let cp := (code a - 240) * 262144 + (code b - 128) * 4096
                         + (code c - 128) * 64 + (code d - 128) in
               (55296 + (cp - 65536) / 1024) :: (56320 + (cp - 65536) mod 1024) :: units r
             else one
         | _ => one
         end)%N
  end.

Definition String_at (s : string) (i : nat) : JsValue :=
  match nth_error (units s) i with
  | Some u => JString (encode u)
  | None => JUndefined
  end.

(** *** Digits *)

Definition digit (c : ascii) : option N :=
  (if (48 <=? code c) && (code c <=? 57) then Some (code c - 48) else None)%N.

Definition hex_digit (c : ascii) : option N :=
  (if (48 <=? code c) && (code c <=? 57) then Some (code c - 48)
   else if (97 <=? code c) && (code c <=? 102) then Some (code c - 87)
   else if (65 <=? code c) && (code c <=? 70) then Some (code c - 55)
   else None)%N.

(** Longest run of digits in base [base] at the head of [s]: its value, its
    length and the rest. *)
Fixpoint digits_with (dig : ascii -> option N) (base : N) (s : string) (acc : N) (len : nat)
  : N * nat * string :=
  match s with
  | String c rest =>
      match dig c with
      | Some d => digits_with dig base rest (acc * base + d)%N (S len)
      | None => (acc, len, s)
      end
  | EmptyString => (acc, len, s)
  end.

Definition digits (s : string) : N * nat * string := digits_with digit 10 s 0%N O.

(** Optional exponent part [e], [E] followed by a signed run of digits;
    [None] when the letter is there and the digits are not. *)
Definition exponent_part (s : string) : option (Z * string) :=
  match s with
  | String c rest =>
      if Ascii.eqb c "e" || Ascii.eqb c "E" then
        let '(neg, rest1) :=
          match rest with
          | String "-" r => (true, r)
          | String "+" r => (false, r)
          | _ => (false, rest)
          end in
        let '(v, len, rest2) := digits rest1 in
        match len with
        | O => None
        | S _ => Some (if neg then - Z.of_N v else Z.of_N v, rest2)
        end
      else Some (0, s)
  | EmptyString => Some (0, s)
  end.

(** *** JSON.parse *)

Fixpoint skip_ws (s : string) : string :=
  match s with
  | String c rest =>
      if (code c =? 32)%N || (code c =? 9)%N || (code c =? 10)%N || (code c =? 13)%N
      then skip_ws rest else s
  | EmptyString => s
  end.

(** JSON number: an optional minus sign, an integer part without leading
    zero, an optional fraction and an optional exponent. *)
Definition json_number (s : string) : option (Num.t * string) :=
  let '(neg, s1) := match s with String "-" r => (true, r) | _ => (false, s) end in
  let '(int, ilen, s2) := digits s1 in
  let leading_zero := match s1 with String "0" _ => true | _ => false end in
  match ilen with
  | O => None
  | S _ =>
      if leading_zero && negb (Nat.eqb ilen 1) then None
      else
        let frac :=
          match s2 with
          | String "." r =>
              let '(m, flen, s3) := digits_with digit 10 r int O in
              match flen with O => None | S _ => Some (m, flen, s3) end
          | _ => Some (int, O, s2)
          end in
        match frac with
        | None => None
        | Some (m, flen, s3) =>
            match exponent_part s3 with
            | None => None
            | Some (e, s4) => Some (Num.of_decimal neg m (e - Z.of_nat flen), s4)
            end
        end
  end.

(** Four hexadecimal digits. *)
Definition hex4 (s : string) : option (N * string) :=
  match s with
  | String a (String b (String c (String d rest))) =>
      match hex_digit a, hex_digit b, hex_digit c, hex_digit d with
      | Some x, Some y, Some z, Some w => Some (x * 4096 + y * 256 + z * 16 + w, rest)%N
      | _, _, _, _ => None
      end
  | _ => None
  end.

(** Characters of a JSON string after its opening quote, up to the closing
    quote.  An escaped high surrogate directly followed by an escaped low
    surrogate is one code point. *)
Fixpoint json_string (fuel : nat) (s : string) : option (string * string) :=
  match fuel with
  | O => None
  | S fuel' =>
      match s with
      | EmptyString => None
      | String c rest =>
          if Ascii.eqb c quote then Some (EmptyString, rest)
          else if Ascii.eqb c backslash then
            match rest with
            | String e rest1 =>
                let simple (b : nat) :=
                  match json_string fuel' rest1 with
                  | Some (str, r) => Some (String (byte b) str, r)
                  | None => None
                  end in
                if Ascii.eqb e quote then simple 34%nat
                else if Ascii.eqb e backslash then simple 92%nat
                else if Ascii.eqb e "/" then simple 47%nat
                else if Ascii.eqb e "b" then simple 8%nat
                else if Ascii.eqb e "f" then simple 12%nat
                else if Ascii.eqb e "n" then simple 10%nat
                else if Ascii.eqb e "r" then simple 13%nat
                else if Ascii.eqb e "t" then simple 9%nat
                else if Ascii.eqb e "u" then
                  match hex4 rest1 with
                  | Some (hi, rest2) =>
                      let alone :=
                        match json_string fuel' rest2 with
                        | Some (str, r) => Some (encode hi ++ str, r)
                        | None => None
                        end in
                      if ((55296 <=? hi) && (hi <? 56320))%N then
                        match rest2 with
                        | String b1 (String u1 rest3) =>
                            if Ascii.eqb b1 backslash && Ascii.eqb u1 "u" then
                              match hex4 rest3 with
                              | Some (lo, rest4) =>
                                  if ((56320 <=? lo) && (lo <? 57344))%N then
                                    match json_string fuel' rest4 with
                                    | Some (str, r) =>
                                        Some (encode (65536 + (hi - 55296) * 1024 + (lo - 56320))%N
                                                ++ str, r)
                                    | None => None
                                    end
                                  else alone
                              | None => alone
                              end
                            else alone
                        | _ => alone
                        end
                      else alone
                  | None => None
                  end
                else None
            | EmptyString => None
            end
          else if (code c <? 32)%N then None
          else
            match json_string fuel' rest with
            | Some (str, r) => Some (String c str, r)
            | None => None
            end
      end
  end.

(** CreateDataProperty on the object under construction: a repeated key
    keeps its place and takes the new value. *)
Fixpoint set_property (props : list (string * JsValue)) (key : string) (v : JsValue)
  : list (string * JsValue) :=
  match props with
  | [] => [(key, v)]
  | (k, old) :: rest =>
      if String.eqb k key then (k, v) :: rest else (k, old) :: set_property rest key v
  end.

Definition literal (word : string) (v : JsValue) (s : string) : option (JsValue * string) :=
  if String.prefix word s
  then Some (v, String.substring (String.length word) (String.length s - String.length word) s)
  else None.

Fixpoint json_value (fuel : nat) (s : string) : option (JsValue * string) :=
  match fuel with
  | O => None
  | S fuel' =>
      match skip_ws s with
      | EmptyString => None
      | String c rest as s' =>
          if Ascii.eqb c "{" then
            match skip_ws rest with
            | String "}" rest1 => Some (JObject [], rest1)
            | _ => json_members fuel' rest []
            end
          else if Ascii.eqb c "[" then
            match skip_ws rest with
            | String "]" rest1 => Some (JArray [], rest1)
            | _ => json_elements fuel' rest []
            end
          else if Ascii.eqb c quote then
            match json_string (S (String.length rest)) rest with
            | Some (str, rest1) => Some (JString str, rest1)
            | None => None
            end
          else if Ascii.eqb c "t" then literal "true" (JBool true) s'
          else if Ascii.eqb c "f" then literal "false" (JBool false) s'
          else if Ascii.eqb c "n" then literal "null" JNull s'
          else
            match json_number s' with
            | Some (x, rest1) => Some (JNumber x, rest1)
            | None => None
            end
      end
  end

with json_members (fuel : nat) (s : string) (acc : list (string * JsValue))
  : option (JsValue * string) :=
  match fuel with
  | O => None
  | S fuel' =>
      match skip_ws s with
      | String c rest =>
          if Ascii.eqb c quote then
            match json_string (S (String.length rest)) rest with
            | Some (key, rest1) =>
                match skip_ws rest1 with
                | String ":" rest2 =>
                    match json_value fuel' rest2 with
                    | Some (v, rest3) =>
                        match skip_ws rest3 with
                        | String "," rest4 => json_members fuel' rest4 (set_property acc key v)
                        | String "}" rest4 => Some (JObject (set_property acc key v), rest4)
                        | _ => None
                        end
                    | None => None
                    end
                | _ => None
                end
            | None => None
            end
          else None
      | EmptyString => None
      end
  end

with json_elements (fuel : nat) (s : string) (acc : list JsValue)
  : option (JsValue * string) :=
  match fuel with
  | O => None
  | S fuel' =>
      match json_value fuel' s with
      | Some (v, rest) =>
          match skip_ws rest with
          | String "," rest1 => json_elements fuel' rest1 (acc ++ [v])%list
          | String "]" rest1 => Some (JArray (acc ++ [v])%list, rest1)
          | _ => None
          end
      | None => None
      end
  end.

(** Every call of the three functions above comes after at least one more
    character was read, so the length of the text bounds their depth. *)
Definition JSON_parse (text : string) : Completion JsValue :=
  match json_value (S (String.length text)) text with
  | Some (v, rest) =>
      match skip_ws rest with
      | EmptyString => Normal v
      | String _ _ => Throw (SyntaxError "Unexpected non-whitespace character after JSON")
      end
  | None => Throw (SyntaxError "Unexpected token in JSON")
  end.

(** *** StringToNumber *)

(** White space and line terminators, as UTF-8. *)
Definition whitespace : list (list nat) :=
  [[9]; [10]; [11]; [12]; [13]; [32]; [194; 160]; [225; 154; 128];
   [226; 128; 128]; [226; 128; 129]; [226; 128; 130]; [226; 128; 131];
   [226; 128; 132]; [226; 128; 133]; [226; 128; 134]; [226; 128; 135];
   [226; 128; 136]; [226; 128; 137]; [226; 128; 138]; [226; 128; 168];
   [226; 128; 169]; [226; 128; 175]; [226; 129; 159]; [227; 128; 128];
   [239; 187; 191]]%nat.

Fixpoint drop_prefix (p s : string) : option string :=
  match p, s with
  | EmptyString, _ => Some s
  | String a p', String b s' => if Ascii.eqb a b then drop_prefix p' s' else None
  | String _ _, EmptyString => None
  end.

Fixpoint drop_any (ps : list string) (s : string) : option string :=
  match ps with
  | [] => None
  | p :: rest =>
      match drop_prefix p s with
      | Some r => Some r
      | None => drop_any rest s
      end
  end.

Fixpoint drop_leading (ps : list string) (fuel : nat) (s : string) : string :=
  match fuel with
  | O => s
  | S fuel' =>
      match drop_any ps s with
      | Some r => drop_leading ps fuel' r
      | None => s
      end
  end.

Fixpoint reverse (s acc : string) : string :=
  match s with
  | EmptyString => acc
  | String c rest => reverse rest (String c acc)
  end.

Definition String_trim (s : string) : string :=
  let front := drop_leading (map bytes whitespace) (String.length s) s in
  let back :=
    drop_leading (map (fun w => bytes (rev w)) whitespace) (String.length front)
                 (reverse front EmptyString) in
  reverse back EmptyString.

(** A run of digits in base [base] that is the whole of [s]. *)
Definition integer_literal (dig : ascii -> option N) (base : N) (s : string) : Num.t :=
  match digits_with dig base s 0%N O with
  | (v, S _, EmptyString) => Num.of_Z (Z.of_N v)
  | _ => Num.NaN
  end.

Definition below (base : N) (c : ascii) : option N :=
  match digit c with
  | Some d => if (d <? base)%N then Some d else None
  | None => None
  end.

(** StrUnsignedDecimalLiteral: [Infinity], or digits with an optional
    fraction and exponent, at least one digit before the exponent. *)
Definition unsigned_decimal (neg : bool) (s : string) : Num.t :=
  if String.eqb s "Infinity" then S754_infinity neg
  else
    let '(int, ilen, s1) := digits s in
    let '(m, flen, s2) :=
      match s1 with
      | String "." r => digits_with digit 10 r int O
      | _ => (int, O, s1)
      end in
    match (ilen + flen)%nat with
    | O => Num.NaN
    | S _ =>
        match exponent_part s2 with
        | Some (e, EmptyString) => Num.of_decimal neg m (e - Z.of_nat flen)
        | _ => Num.NaN
        end
    end.

Definition StringToNumber (s : string) : Num.t :=
  match String_trim s with
  | EmptyString => Num.zero
  | String "0" (String c rest) as t =>
      if Ascii.eqb c "x" || Ascii.eqb c "X" then integer_literal hex_digit 16 rest
      else if Ascii.eqb c "o" || Ascii.eqb c "O" then integer_literal (below 8) 8 rest
      else if Ascii.eqb c "b" || Ascii.eqb c "B" then integer_literal (below 2) 2 rest
      else unsigned_decimal false t
  | String "-" rest => unsigned_decimal true rest
  | String "+" rest => unsigned_decimal false rest
  | t => unsigned_decimal false t
  end.

(** *** Number::toString *)

Definition decimal_string (n : Z) : string :=
  DecimalString.NilEmpty.string_of_uint (N.to_uint (Z.to_N n)).

Fixpoint zeros (n : nat) : string :=
  match n with O => EmptyString | S n' => String "0" (zeros n') end.

(** [num / den < 10 ^ n]. *)
Definition below_pow10 (num den n : Z) : bool :=
  if 0 <=? n then num <? den * 10 ^ n else num * 10 ^ (- n) <? den.

Fixpoint first_pow10_above (fuel : nat) (num den n : Z) : Z :=
  match fuel with
  | O => n
  | S fuel' => if below_pow10 num den n then n else first_pow10_above fuel' num den (n + 1)
  end.

(** Distance from [s * 10 ^ e] to [num / den], as a fraction. *)
Definition distance (num den s e : Z) : Z * Z :=
  if 0 <=? e then (Z.abs (s * 10 ^ e * den - num), den)
  else (Z.abs (s * den - num * 10 ^ (- e)), den * 10 ^ (- e)).

(** The [k]-digit integers [s] next to [num / den / 10 ^ (n - k)] whose
    value [s * 10 ^ (n - k)] rounds to [x]. *)
Definition candidates (x : Num.t) (num den k n : Z) : list (Z * Z) :=
  let lo := if 0 <=? k - n then (num * 10 ^ (k - n)) / den
            else num / (den * 10 ^ (n - k)) in
  filter (fun c : Z * Z =>
            (10 ^ (k - 1) <=? fst c) && (fst c <? 10 ^ k)
            && SFeqb (Num.of_decimal false (Z.to_N (fst c)) (n - k)) x)
         [(lo, n); (lo + 1, n)].

Definition closer (num den k : Z) (a b : Z * Z) : Z * Z :=
  let '(na, da) := distance num den (fst a) (snd a - k) in
  let '(nb, db) := distance num den (fst b) (snd b - k) in
  if na * db <? nb * da then a
  else if nb * da <? na * db then b
  else if Z.even (fst a) then a else b.

(** The least number of digits [k], with the digits [s] and the position
    [n] of the decimal point, such that [s * 10 ^ (n - k)] rounds to [x]. *)
Fixpoint shortest (fuel : nat) (x : Num.t) (num den n0 k : Z) : Z * Z * Z :=
  match fuel with
  | O => (0, 0, 0)
  | S fuel' =>
      match candidates x num den k n0 ++ candidates x num den k (n0 + 1) with
      | [] => shortest fuel' x num den n0 (k + 1)
      | c :: rest =>
          let best := fold_left (closer num den k) rest c in
          (fst best, snd best, k)
      end%list
  end.

Definition Number_toString (x : Num.t) : string :=
  match x with
  | S754_nan => "NaN"
  | S754_zero _ => "0"
  | S754_infinity neg => if neg then "-Infinity" else "Infinity"
  | S754_finite neg m e =>
      let num := if 0 <=? e then Zpos m * 2 ^ e else Zpos m in
      let den := if 0 <=? e then 1 else 2 ^ (- e) in
      let n0 := first_pow10_above 700 num den (-330) in
      let '(s, n, k) := shortest 17 (S754_finite false m e) num den n0 1 in
      let ds := decimal_string s in
      let body :=
        if (k <=? n) && (n <=? 21) then ds ++ zeros (Z.to_nat (n - k))
        else if (0 <? n) && (n <=? 21) then
          String.substring 0 (Z.to_nat n) ds ++ "."
            ++ String.substring (Z.to_nat n) (Z.to_nat (k - n)) ds
        else if (-6 <? n) && (n <=? 0) then "0." ++ zeros (Z.to_nat (- n)) ++ ds
        else
          let mantissa :=
            if k =? 1 then ds
            else String.substring 0 1 ds ++ "." ++ String.substring 1 (Z.to_nat (k - 1)) ds in
          mantissa ++ "e" ++ (if 0 <=? n - 1 then "+" else "-")
            ++ decimal_string (Z.abs (n - 1)) in
      if neg then "-" ++ body else body
  end.

(** *** Case mapping *)

Fixpoint String_toLowerCase (s : string) : string :=
  match s with
  | EmptyString => EmptyString
  | String c rest =>
      String (if (65 <=? code c)%N && (code c <=? 90)%N then ascii_of_N (code c + 32) else c)
             (String_toLowerCase rest)
  end.

(** *** Dates, in UTC *)

Definition msPerDay : Z := 86400000.

(** Day of the month of the day numbered [days] since 1970-01-01. *)
Definition day_of_month (days : Z) : Z :=
  let z := days + 719468 in
  let era := z / 146097 in
  let doe := z - era * 146097 in
  let yoe := (doe - doe / 1460 + doe / 36524 - doe / 146096) / 365 in
  let doy := doe - (365 * yoe + yoe / 4 - yoe / 100) in
  let mp := (5 * doy + 2) / 153 in
  doy - (153 * mp + 2) / 5 + 1.

Definition Date_getDate (d : JsDate) : Num.t :=
  match d with
  | DateAt t => Num.of_Z (day_of_month (t / msPerDay))
  | InvalidDate => Num.NaN
  end.

(** ToIntegerOrInfinity of a finite number. *)
Definition truncate (x : Num.t) : option Z :=
  match x with
  | S754_zero _ => Some 0
  | S754_finite neg m e =>
      let magnitude := if 0 <=? e then Zpos m * 2 ^ e else Zpos m / 2 ^ (- e) in
      Some (if neg then - magnitude else magnitude)
  | _ => None
  end.

(** [setDate(n)]: MakeDay puts the date [n - 1] days after the first of the
    month, that is [n - getDate()] days after the date itself; the time
    within the day stays. *)
Definition Date_setDate (d : JsDate) (n : Num.t) : JsDate :=
  match d, truncate n with
  | DateAt t, Some dt => new_Date (t + (dt - day_of_month (t / msPerDay)) * msPerDay)
  | _, _ => InvalidDate
  end.

End Ref.

Definition ref_runtime : JsRuntime := {|
  JSON_parse := Ref.JSON_parse;
  StringToNumber := Ref.StringToNumber;
  Number_toString := Ref.Number_toString;
  String_toLowerCase := Ref.String_toLowerCase;
  String_trim := Ref.String_trim;
  String_at := Ref.String_at;
  Date_getDate := Ref.Date_getDate;
  Date_setDate := Ref.Date_setDate
|}.

(* ================================================================= *)
(** ** routes/cropTracking.js

    The handler of [POST /analyze-photo].  A request is its form and the
    upload [multer] stored for it; the handler reads and removes the upload
    on the disk, runs the analysis and the scheduler, and answers once.
    A field of the form is a value: a string for a plain field, an array
    or an object where [multer] met a repeated or bracketed field name,
    [undefined] when absent.  Objects are read as JSON documents have them;
    an object built without a prototype has no string form at all, which
    is the throwing case of [parseInt(dayNumber)], and the properties of the
    handler take the outcome of that call as it comes.  [parseInt] and the
    Base64 text of a buffer are computed by their algorithms. *)

Module Node.

(** [parseInt(text)] without radix: leading white space is dropped, then a
    sign, then [0x] selects base 16; the longest run of digits is the value,
    and no digit at all gives NaN. *)
Definition parseInt (text : string) : Num.t :=
  let s := Ref.drop_leading (map Ref.bytes Ref.whitespace) (String.length text) text in
  let '(neg, s1) :=
    match s with
    | String "-" r => (true, r)
    | String "+" r => (false, r)
    | _ => (false, s)
    end in
  let '(dig, base, s2) :=
    match s1 with
    | String "0" (String c r) =>
        if Ascii.eqb c "x" || Ascii.eqb c "X" then (Ref.hex_digit, 16%N, r)
        else (Ref.digit, 10%N, s1)
    | _ => (Ref.digit, 10%N, s1)
    end in
  match Ref.digits_with dig base s2 0%N O with
  | (_, O, _) => Num.NaN
  | (v, S _, _) =>
      match v with
      | N0 => S754_zero neg
      | Npos p => binary_normalize Num.prec Num.emax (if neg then Zneg p else Zpos p) 0 false
      end
  end.

Definition alphabet : string :=
  "ABCDEFGHIJKLMNOPQRSTUVWXYZabcdefghijklmnopqrstuvwxyz0123456789+/".

Definition sextet (n : N) : ascii :=
  match String.get (N.to_nat n) alphabet with
  | Some c => c
  | None => "="%char
  end.

(** [buffer.toString('base64')] on the bytes of a file. *)
Fixpoint toBase64 (bytes : string) : string :=
  match bytes with
  | EmptyString => EmptyString
  | String a EmptyString =>
      let x := Ref.code a in
      String (sextet (x / 4)) (String (sextet ((x mod 4) * 16)) "==")
  | String a (String b EmptyString) =>
      let x := Ref.code a in
      let y := Ref.code b in
      String (sextet (x / 4))
        (String (sextet ((x mod 4) * 16 + y / 16))
           (String (sextet ((y mod 16) * 4)) "="))
  | String a (String b (String c rest)) =>
      let x := Ref.code a in
      let y := Ref.code b in
      let z := Ref.code c in
      String (sextet (x / 4))
        (String (sextet ((x mod 4) * 16 + y / 16))
           (String (sextet ((y mod 16) * 4 + z / 64))
              (String (sextet (z mod 64)) (toBase64 rest))))
  end%N.

End Node.

(** The files in the upload directory: path and bytes. *)
Definition Disk : Type := list (string * string).

(** The fields of [req.body] the handler reads. *)
Record Form : Type := mkForm {
  form_cropType : JsValue;
  form_dayNumber : JsValue;
  form_previousSummary : JsValue;
  form_language : JsValue
}.

(** The object [cropInfo] of the handler. *)
Record CropInfo : Type := mkCropInfo {
  info_cropType : string;
  info_dayNumber : Num.t;
  info_language : JsValue
}.

(** The [analysis] object of the answer: six fields of the analysis. *)
Record Report : Type := mkReport {
  report_healthScore : Num.t;
  report_growthStage : JsValue;
  report_issues : list JsValue;
  report_observations : JsValue;
  report_recommendations : list JsValue;
  report_urgency : string
}.

(** What the handler sends: [res.status(400).json({ error, validTypes? })],
    [res.json({ success: true, analysis, nextPhoto, cropInfo, message })] or
    [res.status(500).json({ error: 'Analysis failed', message, success: false })]. *)
Inductive Response : Type :=
| BadRequest (error : string) (validTypes : option (list string))
| Success (analysis : Report) (nextPhoto : Schedule) (cropInfo : CropInfo)
| ServerError (message : string).

Definition validCrops : list string :=
  ["tomato"; "chili"; "onion"; "potato"; "wheat"; "rice"; "corn"; "lettuce"].

Fixpoint lookup_file (disk : Disk) (path : string) : option string :=
  match disk with
  | [] => None
  | (p, bytes) :: rest => if String.eqb p path then Some bytes else lookup_file rest path
  end.

Definition remove_file (disk : Disk) (path : string) : Disk :=
  filter (fun entry => negb (String.eqb (fst entry) path)) disk.

(** A computation of the handler: it may change the world and the disk. *)
Definition Handler (A : Type) : Type := World * Disk -> Completion A * (World * Disk).

Definition hret {A} (a : A) : Handler A := fun st => (Normal a, st).

Definition hbind {A B} (m : Handler A) (k : A -> Handler B) : Handler B :=
  fun st =>
    match m st with
    | (Normal a, st') => k a st'
    | (Throw e, st') => (Throw e, st')
    end.

Definition htry {A} (body : Handler A) (handler : JsError -> Handler A) : Handler A :=
  fun st =>
    match body st with
    | (Normal a, st') => (Normal a, st')
    | (Throw e, st') => handler e st'
    end.

(** An effect on the world alone. *)
Definition in_world {A} (m : IO A) : Handler A :=
  fun st =>
    match m (fst st) with
    | (c, w') => (c, (w', snd st))
    end.

Declare Scope handler_scope.
Delimit Scope handler_scope with handler.
Notation "x <- c ;; k" := (hbind c (fun x => k))
  (at level 61, c at next level, right associativity) : handler_scope.
Notation "c ;;; k" := (hbind c (fun _ => k))
  (at level 61, right associativity) : handler_scope.

(** [fs.readFileSync(path)]. *)
Definition readFileSync (path : string) : Handler string :=
  fun st =>
    match lookup_file (snd st) path with
    | Some bytes => (Normal bytes, st)
    | None =>
        (Throw (Error ("ENOENT: no such file or directory, open '" ++ path ++ "'")), st)
    end.

(** [fs.unlinkSync(path)]. *)
Definition unlinkSync (path : string) : Handler unit :=
  fun st =>
    match lookup_file (snd st) path with
    | Some _ => (Normal tt, (fst st, remove_file (snd st) path))
    | None =>
        (Throw (Error ("ENOENT: no such file or directory, unlink '" ++ path ++ "'")), st)
    end.

Section CropTrackingRoute.
Context {R : JsRuntime} (env : ProcessEnv) (upstream : Upstream).
Variable buildGrowthAnalysisPrompt :
  JsValue -> JsValue -> JsValue -> JsValue -> Completion string.

Definition report_of (analysis : Analysis) : Report :=
  mkReport (healthScore analysis) (growthStage analysis) (issues analysis)
           (observations analysis) (recommendations analysis) (urgency analysis).

(** [cropType.toLowerCase()]: the method call throws on anything but a
    string. *)
Definition toLowerCase (cropType : JsValue) : Completion string :=
  match cropType with
  | JString s => Normal (String_toLowerCase s)
  | _ =>
      (_ <- js_get cropType "toLowerCase" ;;
       Throw (TypeError "cropType.toLowerCase is not a function"))%cpl
  end.

(** [parseInt(dayNumber) || 1]: [parseInt] reads the string of its
    argument, [undefined] for an absent field. *)
Definition day_number (dayNumber : JsValue) : Completion Num.t :=
  (text <- ToString dayNumber ;;
   let n := Node.parseInt text in
   Normal (if Num.truthy n then n else Num.one))%cpl.

Definition crop_info_value (info : CropInfo) : JsValue :=
  JObject [("cropType", JString (info_cropType info));
           ("dayNumber", JNumber (info_dayNumber info));
           ("language", info_language info)].

Definition analyze_photo (form : Form) (file : option string) : Handler Response :=
  let cropType := form_cropType form in
  let dayNumber := form_dayNumber form in
  let previousSummary := form_previousSummary form in
  let language := form_language form in
  htry
    (if negb (truthy cropType)
     then hret (BadRequest "cropType is required" None)
     else
       match file with
       | None => hret (BadRequest "Image file is required" None)
       | Some path =>
           (lowered <- in_world (lift (toLowerCase cropType)) ;;
            if negb (existsb (String.eqb lowered) validCrops)
            then hret (BadRequest "Invalid cropType" (Some validCrops))
            else
              (imageBuffer <- readFileSync path ;;
               let imageBase64 := Node.toBase64 imageBuffer in
               lowered <- in_world (lift (toLowerCase cropType)) ;;
               parsed <- in_world (lift (day_number dayNumber)) ;;
               let cropInfo := mkCropInfo lowered parsed (js_or language (JString "en")) in
               analysis <- in_world
                 (analyzeGrowthPhoto env upstream buildGrowthAnalysisPrompt
                    (JString "test_crop_id") (Some imageBase64)
                    (js_or previousSummary JNull)
                    (crop_info_value cropInfo)) ;;
               nextPhoto <- in_world
                 (calculateNextPhotoDate analysis (JString (info_cropType cropInfo))
                                         (growthStage analysis)) ;;
               unlinkSync path ;;;
               hret (Success (report_of analysis) nextPhoto cropInfo)))%handler
       end)
    (fun error =>
       ((match file with
         | Some path => htry (unlinkSync path) (fun cleanupError => hret tt)
         | None => hret tt
         end) ;;;
        hret (ServerError (err_message error)))%handler).

End CropTrackingRoute.

(* ================================================================= *)
(** ** server.js: the routes that call [callGeminiAPI]

    The fields of a request body are values: texts for a multipart form,
    anything JSON has for a JSON body, [undefined] when absent.  The prompt
    builders are parameters; they can throw where a template literal turns
    an object into text.  The time stamp of an answer is kept as the date
    whose ISO text is sent. *)

(** The fields [/analyze-plant] and [/analyze-spray] read. *)
Record ImageBody : Type := mkImageBody {
  image_language : JsValue;
  image_analysisType : JsValue;
  image_location : JsValue;
  image_temperature : JsValue
}.

(** The fields [/consultation] reads. *)
Record QueryBody : Type := mkQueryBody {
  query_plant_name : JsValue;
  query_symptoms : JsValue;
  query_location : JsValue;
  query_language : JsValue
}.

(** What these routes send: [res.status(400).json({ error })],
    [res.json({ success: true, analysis, timestamp })],
    [res.json({ success: true, advice, timestamp })] or
    [res.status(500).json({ error })]. *)
Inductive Reply : Type :=
| Status400 (error : string)
| Analysis200 (analysis : JsValue) (timestamp : JsDate)
| Advice200 (advice : JsValue) (timestamp : JsDate)
| Status500 (error : string).

(** [v === text]. *)
Definition is_text (v : JsValue) (text : string) : bool :=
  match v with
  | JString s => String.eqb s text
  | _ => false
  end.

Section ServerRoutes.
Context {R : JsRuntime} (env : ProcessEnv) (upstream : Upstream).
Variable getPlantAnalysisPrompt : JsValue -> JsValue -> JsValue -> Completion string.
Variable getProductAnalysisPrompt : JsValue -> Completion string.
Variable getDiseaseQueryPrompt : JsValue -> JsValue -> JsValue -> JsValue -> Completion string.

(** [app.post('/analyze-plant', upload.single('image'), ...)].  The cleanup
    in its [catch] is not guarded: when it throws, the handler throws. *)
Definition analyze_plant (body : ImageBody) (file : option string) : Handler Reply :=
  htry
    (match file with
     | None => hret (Status400 "No image uploaded")
     | Some path =>
         let language := js_or (image_language body) (JString "en") in
         let analysisType := image_analysisType body in
         let location := image_location body in
         let temperature := image_temperature body in
         (imageBuffer <- readFileSync path ;;
          let imageBase64 := Node.toBase64 imageBuffer in
          prompt <- in_world (lift (if is_text analysisType "product"
                                    then getProductAnalysisPrompt language
                                    else getPlantAnalysisPrompt language location temperature)) ;;
          result <- in_world (callGeminiAPI env upstream prompt (Some imageBase64)) ;;
          unlinkSync path ;;;
          timestamp <- in_world Date_now ;;
          hret (Analysis200 result (new_Date timestamp)))%handler
     end)
    (fun error =>
       ((match file with
         | Some path => unlinkSync path
         | None => hret tt
         end) ;;;
        hret (Status500 (err_message error)))%handler).

(** [app.post('/consultation', ...)]. *)
Definition consultation (body : QueryBody) : IO Reply :=
  try_catch
    (let plant_name := query_plant_name body in
     let symptoms := query_symptoms body in
     let location := query_location body in
     let lang := js_or (query_language body) (JString "en") in
     if negb (truthy plant_name) || negb (truthy symptoms)
     then ret (Status400 "Plant name and symptoms are required")
     else
       (prompt <- lift (getDiseaseQueryPrompt plant_name symptoms location lang) ;;
        result <- callGeminiAPI env upstream prompt None ;;
        timestamp <- Date_now ;;
        ret (Advice200 result (new_Date timestamp)))%io)
    (fun error => ret (Status500 (err_message error))).

(** [app.post('/analyze-spray', upload.single('image'), ...)]. *)
Definition analyze_spray (body : ImageBody) (file : option string) : Handler Reply :=
  htry
    (match file with
     | None => hret (Status400 "No image uploaded")
     | Some path =>
         let language := js_or (image_language body) (JString "en") in
         (imageBuffer <- readFileSync path ;;
          let imageBase64 := Node.toBase64 imageBuffer in
          prompt <- in_world (lift (getProductAnalysisPrompt language)) ;;
          result <- in_world (callGeminiAPI env upstream prompt (Some imageBase64)) ;;
          unlinkSync path ;;;
          timestamp <- in_world Date_now ;;
          hret (Analysis200 result (new_Date timestamp)))%handler
     end)
    (fun error =>
       ((match file with
         | Some path => unlinkSync path
         | None => hret tt
         end) ;;;
        hret (Status500 (err_message error)))%handler).

End ServerRoutes.

(* ================================================================= *)
(** ** Vocabulary of the properties *)

(** [n] calls in a row, with their results. *)
Fixpoint times {A} (n : nat) (m : IO A) : IO (list A) :=
  match n with
  | O => ret []
  | S n' => (a <- m ;; rest <- times n' m ;; ret (a :: rest))%io
  end.


(** The addresses posted to, oldest first. *)
Definition urls_posted (t : list Event) : list string :=
  flat_map (fun ev => match ev with Post url _ => [url] | Sleep _ => [] end) t.

(** The world after one more post. *)
Definition posted (url : string) (payload : Payload) (w : World) : World :=
  mkWorld (now w) (rotationCounter w) (trace w ++ [Post url payload]).


Fixpoint has_char (c : ascii) (s : string) : bool :=
  match s with
  | EmptyString => false
  | String a rest => Ascii.eqb a c || has_char c rest
  end.

(** The extraction as the specification words it.  [balanced_prefix s depth]
    reads [s] behind an opening brace with [depth] braces open and returns
    the text up to the brace that closes the first one; braces inside a
    string literal do not count. *)
Fixpoint balanced_prefix (s : string) (depth : nat) (in_string escaped : bool)
  : option string :=
  match s with
  | EmptyString => None
  | String c rest =>
      let keep := option_map (String c) in
      if in_string then
        if escaped then keep (balanced_prefix rest depth true false)
        else if Ascii.eqb c backslash then keep (balanced_prefix rest depth true true)
        else if Ascii.eqb c quote then keep (balanced_prefix rest depth false false)
        else keep (balanced_prefix rest depth true false)
      else if Ascii.eqb c quote then keep (balanced_prefix rest depth true false)
      else if Ascii.eqb c "{" then keep (balanced_prefix rest (S depth) false false)
      else if Ascii.eqb c "}" then
        match depth with
        | O => None
        | S O => Some (String c EmptyString)
        | S d => keep (balanced_prefix rest d false false)
        end
      else keep (balanced_prefix rest depth false false)
  end.

(** The first opening brace from which the braces balance, with the text up
    to its closing brace. *)
Fixpoint spec_first_balanced_object (text : string) : option string :=
  match text with
  | EmptyString => None
  | String c rest =>
      if Ascii.eqb c "{" then
        match balanced_prefix rest 1 false false with
        | Some body => Some (String c body)
        | None => spec_first_balanced_object rest
        end
      else spec_first_balanced_object rest
  end.


(** The value read from property [key] of an object with properties
    [props]. *)
Definition prop (props : list (string * JsValue)) (key : string) : JsValue :=
  match own_property props key with
  | Some x => x
  | None => JUndefined
  end.

(** The test [!parsed && parsed !== false] of [formatAnalysisForStorage]:
    the object carries no marker [parsed]. *)
Definition unmarked (props : list (string * JsValue)) : bool :=
  negb (truthy (prop props "parsed"))
  && negb (match prop props "parsed" with JBool false => true | _ => false end).

(** A raw response nothing can be parsed out of: it is no string, or a text
    without a brace match, or a text whose match [JSON.parse] rejects. *)
Definition unparsable {R : JsRuntime} (raw : JsValue) : bool :=
  match raw with
  | JString text =>
      match match_braces text with
      | Some m => match JSON_parse m with Throw _ => true | Normal _ => false end
      | None => true
      end
  | _ => true
  end.

(** The part of a schedule that does not mention a date. *)
Definition days_and_urgency (c : Completion Schedule) : Completion (Num.t * string) :=
  match c with
  | Normal s => Normal (sched_nextPhotoDays s, sched_urgency s)
  | Throw e => Throw e
  end.

(** A JSON text: [key] in quotes. *)
Definition quoted (s : string) : string :=
  String quote (s ++ String quote EmptyString).

(* ================================================================= *)
(** ** Concrete inputs *)

(** A configuration with a legacy key and a pool of two keys (the variable
    that holds only blanks does not count). *)
Definition two_key_env : ProcessEnv :=
  mkEnv (Some "legacy-key") (Some "key-one") (Some "key-two") None (Some "   ") None.

(** A configuration with a legacy key and no usable pool key. *)
Definition legacy_env : ProcessEnv :=
  mkEnv (Some "legacy-key") None (Some EmptyString) (Some "  ") None None.

(** A provider that rejects every request. *)
Definition failing_upstream : Upstream :=
  fun _ _ _ => Rejected (Error "Request failed with status code 503").

(** A provider that answers every request with the text [text]. *)
Definition answering (text : string) : Upstream :=
  fun _ _ _ =>
    Resolved (JObject [("candidates",
      JArray [JObject [("content",
        JObject [("parts", JArray [JObject [("text", JString text)]])])]])]).

(** A prompt builder that returns a fixed text. *)
Definition fixed_prompt : JsValue -> JsValue -> JsValue -> JsValue -> Completion string :=
  fun _ _ _ _ => Normal "Analyze this plant.".

Definition start : World := mkWorld 1762041600000 0 [].

(** A response with two objects in it:
    [{"healthScore":90} and {"note":1}]. *)
Definition two_objects_text : string :=
  "{" ++ quoted "healthScore" ++ ":90} and {" ++ quoted "note" ++ ":1}".

(** [{"healthScore":0}], [{"healthScore":"high"}] and [{"healthScore":true}]. *)
Definition zero_score_text : string := "{" ++ quoted "healthScore" ++ ":0}".
Definition word_score_text : string :=
  "{" ++ quoted "healthScore" ++ ":" ++ quoted "high" ++ "}".
Definition true_score_text : string := "{" ++ quoted "healthScore" ++ ":true}".

(** [{"healthScore":80,"recommendations":"water daily"}]. *)
Definition text_recommendation : string :=
  "{" ++ quoted "healthScore" ++ ":80," ++ quoted "recommendations" ++ ":"
      ++ quoted "water daily" ++ "}".

(** [{"parsed":true,"healthScore":90,"growthStage":"flowering"}]. *)
Definition marked_text : string :=
  "{" ++ quoted "parsed" ++ ":true," ++ quoted "healthScore" ++ ":90,"
      ++ quoted "growthStage" ++ ":" ++ quoted "flowering" ++ "}".

(** The analysis of a healthy plant in flower, and the clock one day after
    [start]. *)
Definition healthy_flowering : Analysis :=
  mkAnalysis (Num.of_Z 90) (JString "flowering") [] (JString "Buds are opening.")
             [] None (Num.of_Z 5) "routine".

Definition a_day_later : World := mkWorld (1762041600000 + 86400000) 0 [].

(** A response as the provider words it, the object inside a code fence:
    a score above the range, an issue that has braces in its text. *)
Definition newline : string := String (ascii_of_nat 10) EmptyString.

Definition fenced_text : string :=
  "```json" ++ newline
    ++ "{" ++ quoted "growthStage" ++ ": " ++ quoted "flowering" ++ ", "
    ++ quoted "healthScore" ++ ": 120, "
    ++ quoted "issues" ++ ": [" ++ quoted "Pest damage on {lower} leaves" ++ "], "
    ++ quoted "observations" ++ ": " ++ quoted "Buds are opening." ++ ", "
    ++ quoted "nextPhotoDays" ++ ": 9, "
    ++ quoted "urgency" ++ ": " ++ quoted "urgent" ++ "}" ++ newline ++ "```".

(** A provider whose first answer is a timeout and whose later answers carry
    [text]. *)
Definition flaky (text : string) : Upstream :=
  fun n url payload =>
    match n with
    | O => Rejected (Error "timeout of 30000ms exceeded")
    | S _ => answering text n url payload
    end.

(** The analysis of a weak seedling with a pest. *)
Definition weak_seedling : Analysis :=
  mkAnalysis (Num.of_Z 60) (JString "germination") [JString "Pest damage observed"]
             (JString "Leaves are eaten.") [] None (Num.of_Z 4) "routine".

(** [{"healthScore":{"toString":1}}]. *)
Definition opaque_score_text : string :=
  "{" ++ quoted "healthScore" ++ ":{" ++ quoted "toString" ++ ":1}}".

(* ================================================================= *)
(** ** Vocabulary and inputs of the further properties *)

(** What one attempt yields: the text of the response, or the error of a
    rejected post or of an envelope without the path to the text. *)
Definition attempt_result {R : JsRuntime} (outcome : AxiosOutcome) : Completion JsValue :=
  match outcome with
  | Rejected error => Throw error
  | Resolved data => response_text data
  end.

(** The world after a pause. *)
Definition slept (ms : Z) (w : World) : World :=
  mkWorld (now w + ms) (rotationCounter w) (trace w ++ [Sleep ms]).

(** A value that is no string, array or object. *)
Definition plain (v : JsValue) : bool :=
  match v with
  | JUndefined | JNull | JBool _ | JNumber _ => true
  | JString _ | JArray _ | JObject _ => false
  end.

Definition is_finite (x : Num.t) : bool :=
  match x with
  | S754_zero _ | S754_finite _ _ _ => true
  | S754_infinity _ | S754_nan => false
  end.

(** The keys of [stageAdjustments] with their days as integers. *)
Definition stage_days : list (string * Z) :=
  [("germination", 1); ("flowering", -1); ("fruiting", -1); ("maturity", 1)].

(** A key that [stageAdjustments] does not have but inherits. *)
Definition inherited (key : string) : bool :=
  match assoc stageAdjustments key with
  | Some _ => false
  | None => existsb (String.eqb key) Object_prototype_names
  end.

(** The days of the scheduler in integer arithmetic: the hint [h], whether
    the health score is below 70, whether an issue is critical, and the days
    of the stage. *)
Definition integer_days (h : Z) (weak critical : bool) (adjustment : Z) : Z :=
  let d := if weak then Z.max 1 (h - 1) else h in
  let d := if critical then Z.min 2 d else d in
  Z.max 1 (Z.min 7 (d + adjustment)).

Definition urgency_of_days (days : Z) : string :=
  if days <=? 2 then "critical" else if days <=? 3 then "important" else "routine".

(** The two messages of the fallback records, in lower case. *)
Definition lowers_fallback_messages {R : JsRuntime} : Prop :=
  String_toLowerCase "Analysis failed - manual review needed"
    = "analysis failed - manual review needed"
  /\ String_toLowerCase "Unable to parse AI response" = "unable to parse ai response".

(** The crop information the handler builds from a form, its call of the
    analysis with that information, and whether the crop type passes the
    validation. *)
Definition request_info {R : JsRuntime} (form : Form) : Completion CropInfo :=
  (lowered <- toLowerCase (form_cropType form) ;;
   parsed <- day_number (form_dayNumber form) ;;
   Normal (mkCropInfo lowered parsed (js_or (form_language form) (JString "en"))))%cpl.

Definition request_analysis {R : JsRuntime} (env : ProcessEnv) (upstream : Upstream)
           (builder : JsValue -> JsValue -> JsValue -> JsValue -> Completion string)
           (form : Form) (info : CropInfo) (bytes : string) : IO Analysis :=
  analyzeGrowthPhoto env upstream builder (JString "test_crop_id")
                     (Some (Node.toBase64 bytes))
                     (js_or (form_previousSummary form) JNull)
                     (crop_info_value info).

Definition valid_crop {R : JsRuntime} (form : Form) : bool :=
  truthy (form_cropType form)
  && match form_cropType form with
     | JString s => existsb (String.eqb (String_toLowerCase s)) validCrops
     | _ => false
     end.

(** A request the validation turns down: no crop type, no file, or a crop
    type that is a text but none of the valid crops. *)
Definition refused {R : JsRuntime} (form : Form) (file : option string) : bool :=
  negb (truthy (form_cropType form))
  || match file with
     | None => true
     | Some _ =>
         match form_cropType form with
         | JString s => negb (existsb (String.eqb (String_toLowerCase s)) validCrops)
         | _ => false
         end
     end.

(** The message of Node for a file that is not there. *)
Definition no_such_file (path : string) : string :=
  "ENOENT: no such file or directory, open '" ++ path ++ "'".

(** The message of Node for a file to remove that is not there. *)
Definition no_file_to_unlink (path : string) : string :=
  "ENOENT: no such file or directory, unlink '" ++ path ++ "'".

(** The answer of a route of the server to the one attempt of
    [callGeminiAPI]: the text of the provider with the time of the answer,
    or status 500 with 'AI analysis failed'. *)
Definition reply_of_attempt (ok : JsValue -> JsDate -> Reply)
           (outcome : Completion JsValue) (at_ms : Z) : Reply :=
  match outcome with
  | Normal text => ok text (new_Date at_ms)
  | Throw _ => Status500 "AI analysis failed"
  end.

(** The answer of a route of the server after its validation, and the world
    it leaves, when the selection of a key in the world [w] returns [key]
    and leaves [w1].  An error of the prompt builder is answered with its
    message, before any selection or post; a prompt is posted once, with the
    image, to the address with that key, and the answer follows the outcome
    of that post. *)
Definition answer_after_one_call {R : JsRuntime} (upstream : Upstream)
           (ok : JsValue -> JsDate -> Reply) (prompt : Completion string)
           (imageBase64 : option string) (key : option string) (w w1 : World)
  : Reply * World :=
  match prompt with
  | Throw e => (Status500 (err_message e), w)
  | Normal text =>
      let url := generateContent_url "gemini-2.5-flash" (env_text key) in
      let payload := build_payload text imageBase64
                                   (Num.of_decimal false 4 (-1)) (Num.of_Z 4096) in
      let w' := posted url payload w1 in
      (reply_of_attempt ok (attempt_result (upstream (posts_made (trace w)) url payload))
                        (now w'),
       w')
  end.

(** A form for a tomato on day 12, and a disk with its upload and one other
    file. *)
Definition tomato_form : Form :=
  mkForm (JString "Tomato") (JString "12") JUndefined (JString "hi").
Definition mango_form : Form := mkForm (JString "Mango") JUndefined JUndefined JUndefined.

(** A form in which the field [cropType] came twice. *)
Definition repeated_form : Form :=
  mkForm (JArray [JString "tomato"; JString "rice"]) (JString "12") JUndefined JUndefined.
Definition upload_disk : Disk := [("uploads/3f9a", "hello"); ("uploads/77c1", "other")].

(** Prompt builders with a fixed text, and two request bodies. *)
Definition plant_prompt : JsValue -> JsValue -> JsValue -> Completion string :=
  fun _ _ _ => Normal "Analyze this plant image.".
Definition product_prompt : JsValue -> Completion string :=
  fun _ => Normal "Analyze this agricultural product image.".
Definition query_prompt : JsValue -> JsValue -> JsValue -> JsValue -> Completion string :=
  fun _ _ _ _ => Normal "Provide advice.".
Definition leaf_body : ImageBody :=
  mkImageBody (JString "hi") JUndefined (JString "Pune") JUndefined.
Definition wilt_body : QueryBody :=
  mkQueryBody (JString "tomato") (JString "wilting leaves") JUndefined JUndefined.

(* ================================================================= *)
(** ** Key rotation *)

Lemma times_unchanged {A} (m : IO A) (a : A) (w : World) :
  m w = (Normal a, w) ->
  forall n, times n m w = (Normal (repeat a n), w).
Proof.
  intros Hm n. induction n as [|n IH]; simpl.
  - reflexivity.
  - unfold bind. rewrite Hm. rewrite IH. reflexivity.
Qed.

Lemma getNextApiKey_rotating {R : JsRuntime} (env : ProcessEnv) (w : World) :
  apiKeys env <> [] ->
  getNextApiKey env w =
    (Normal (nth_error (apiKeys env) (N.to_nat (keyIndex (rotationCounter w) (apiKeys env)))),
     mkWorld (now w) (increment (rotationCounter w)) (trace w)).
Proof.
  intros Hne. unfold getNextApiKey.
  destruct (apiKeys env) as [|k ks] eqn:Hk; [congruence | reflexivity].
Qed.

(** C6.  With two credentials in the pool and the rotation counter at 0, six
    selections in a row return the first credential three times and then the
    second one three times: the index [floor(counter / 3) mod 2] takes the
    values 0, 0, 0, 1, 1, 1 while the counter goes from 0 to 6.  Each
    selection returns the credential at that index and adds one to the
    counter. *)
Theorem rotation_two_keys_six_calls {R : JsRuntime} (env : ProcessEnv)
        (k0 k1 : string) (w : World) :
  apiKeys env = [k0; k1] ->
  rotationCounter w = 0%N ->
  times 6 (getNextApiKey env) w =
    (Normal [Some k0; Some k0; Some k0; Some k1; Some k1; Some k1],
     mkWorld (now w) 6%N (trace w))
  /\ map (fun counter => keyIndex counter (apiKeys env)) [0; 1; 2; 3; 4; 5]%N
     = [0; 0; 0; 1; 1; 1]%N
  /\ (forall w0,
        (rotationCounter w0 < 2 ^ 53)%N ->
        getNextApiKey env w0 =
          (Normal (nth_error [k0; k1] (N.to_nat ((rotationCounter w0 / 3) mod 2)%N)),
           mkWorld (now w0) (rotationCounter w0 + 1)%N (trace w0))).
Proof.
  intros Hkeys Hzero.
  assert (Hne : apiKeys env <> []) by (rewrite Hkeys; discriminate).
  destruct w as [t c tr]. simpl in Hzero. subst c.
  split; [|split].
  - unfold times, bind, ret.
    repeat (rewrite (getNextApiKey_rotating env _ Hne); cbn [rotationCounter now trace]).
    rewrite Hkeys. reflexivity.
  - rewrite Hkeys. reflexivity.
  - intros w0 Hlt. rewrite (getNextApiKey_rotating env w0 Hne), Hkeys.
    unfold increment. apply N.ltb_lt in Hlt. rewrite Hlt. reflexivity.
Qed.

Lemma rotation_two_keys_six_calls_witness :
  times 6 (getNextApiKey (R := ref_runtime) two_key_env) (mkWorld 0 0 []) =
    (Normal [Some "key-one"; Some "key-one"; Some "key-one";
             Some "key-two"; Some "key-two"; Some "key-two"],
     mkWorld 0 6%N [])
  /\ map (fun counter => keyIndex counter (apiKeys (R := ref_runtime) two_key_env))
         [0; 1; 2; 3; 4; 5]%N
     = [0; 0; 0; 1; 1; 1]%N.
Proof.
  split;
    apply (rotation_two_keys_six_calls (R := ref_runtime) two_key_env "key-one" "key-two"
                                       (mkWorld 0 0 [])); reflexivity.
Defined.

(** C7.  With an empty pool every selection, however many are made, returns
    the configured [GEMINI_API_KEY] and leaves the world, the rotation
    counter included, as it was. *)
Theorem empty_pool_returns_legacy_key {R : JsRuntime} (env : ProcessEnv)
        (w : World) (n : nat) :
  apiKeys env = [] ->
  getNextApiKey env w = (Normal (GEMINI_API_KEY env), w)
  /\ times n (getNextApiKey env) w = (Normal (repeat (GEMINI_API_KEY env) n), w).
Proof.
  intros Hempty.
  assert (Hone : getNextApiKey env w = (Normal (GEMINI_API_KEY env), w)).
  { unfold getNextApiKey. rewrite Hempty. reflexivity. }
  split; [exact Hone | apply times_unchanged; exact Hone].
Qed.

Lemma empty_pool_returns_legacy_key_witness :
  getNextApiKey (R := ref_runtime) legacy_env (mkWorld 0 7 []) =
    (Normal (Some "legacy-key"), mkWorld 0 7 [])
  /\ times 4 (getNextApiKey (R := ref_runtime) legacy_env) (mkWorld 0 7 []) =
       (Normal (repeat (Some "legacy-key") 4), mkWorld 0 7 []).
Proof.
  apply (empty_pool_returns_legacy_key (R := ref_runtime) legacy_env (mkWorld 0 7 []) 4).
  reflexivity.
Defined.

(* ================================================================= *)
(** ** The retrying executor *)

Lemma posts_made_post (t : list Event) (url : string) (payload : Payload) :
  posts_made (t ++ [Post url payload]) = S (posts_made t).
Proof.
  unfold posts_made. rewrite filter_app, length_app. simpl. lia.
Qed.

Lemma posts_made_sleep (t : list Event) (ms : Z) :
  posts_made (t ++ [Sleep ms]) = posts_made t.
Proof.
  unfold posts_made. rewrite filter_app, length_app. simpl. lia.
Qed.



Section Executor.
Context {R : JsRuntime} (upstream : Upstream) (url : string) (payload : Payload).






End Executor.

Lemma catch_all_returns {R : JsRuntime} (body : IO Analysis) (w : World) :
  exists a,
    try_catch body (fun _ => (t <- Date_now ;; ret (unavailable_record t))%io) w
      = (Normal a, snd (body w))
    /\ (forall e, fst (body w) = Throw e -> a = unavailable_record (now (snd (body w))))
    /\ (forall a', fst (body w) = Normal a' -> a = a').
Proof.
  unfold try_catch. destruct (body w) as [[a|e] w'] eqn:Hb; simpl.
  - exists a. repeat split; congruence.
  - exists (unavailable_record (now w')). repeat split; congruence.
Qed.





(* ================================================================= *)
(** ** Extraction of the JSON object *)

Lemma append_assoc (a b c : string) : (a ++ b) ++ c = a ++ (b ++ c).
Proof.
  induction a as [|x a IH]; simpl; [reflexivity | rewrite IH; reflexivity].
Qed.

Lemma has_char_app (c : ascii) (a b : string) :
  has_char c (a ++ b) = has_char c a || has_char c b.
Proof.
  induction a as [|x a IH]; simpl; [reflexivity|].
  rewrite IH. apply orb_assoc.
Qed.

Lemma after_first_spec (c : ascii) (s : string) :
  match after_first c s with
  | Some rest => exists pre, s = pre ++ String c rest /\ has_char c pre = false
  | None => has_char c s = false
  end.
Proof.
  induction s as [|a s IH]; simpl; [reflexivity|].
  destruct (Ascii.eqb a c) eqn:Hac.
  - apply Ascii.eqb_eq in Hac. subst a. exists EmptyString. split; reflexivity.
  - destruct (after_first c s) as [rest|].
    + destruct IH as (pre & -> & Hpre). exists (String a pre). simpl.
      rewrite Hac, Hpre. split; reflexivity.
    + simpl. exact IH.
Qed.

Lemma through_last_spec (c : ascii) (s : string) :
  match through_last c s with
  | Some p => exists body post,
      s = body ++ String c post /\ p = body ++ String c EmptyString
      /\ has_char c post = false
  | None => has_char c s = false
  end.
Proof.
  induction s as [|a s IH]; simpl; [reflexivity|].
  destruct (through_last c s) as [p|].
  - destruct IH as (body & post & -> & -> & Hpost).
    exists (String a body), post. repeat split; assumption.
  - destruct (Ascii.eqb a c) eqn:Hac.
    + apply Ascii.eqb_eq in Hac. subst a.
      exists EmptyString, s. repeat split; assumption.
    + simpl. exact IH.
Qed.

(** Whatever follows an occurrence of [c] follows the first one. *)
Lemma after_first_suffix (c : ascii) (pre rest : string) :
  exists mid, after_first c (pre ++ String c rest) = Some (mid ++ rest).
Proof.
  induction pre as [|a pre IH]; simpl.
  - rewrite Ascii.eqb_refl. exists EmptyString. reflexivity.
  - destruct (Ascii.eqb a c).
    + exists (pre ++ String c EmptyString). rewrite append_assoc. reflexivity.
    + exact IH.
Qed.

(** C1 (as the code has it).  The extraction is the match of one greedy
    pattern: the text from the first opening brace through the last closing
    brace behind it, whatever lies between; there is no match exactly when
    no opening brace has a closing brace behind it.  The match is handed to
    [JSON.parse]: its value is the result, and a text without match or a
    match that does not parse gives the wrapped raw response. *)
Theorem extraction_first_open_to_last_close {R : JsRuntime} (text : string) :
  match match_braces text with
  | Some m =>
      exists pre body post,
        text = pre ++ "{" ++ body ++ "}" ++ post
        /\ m = "{" ++ body ++ "}"
        /\ has_char "{" pre = false
        /\ has_char "}" post = false
  | None =>
      forall pre rest, text = pre ++ "{" ++ rest -> has_char "}" rest = false
  end
  /\ parseGeminiResponse (JString text) =
       match match_braces text with
       | Some m =>
           match JSON_parse m with
           | Normal v => Normal v
           | Throw error =>
               Normal (JObject [("rawResponse", JString text); ("parsed", JBool false);
                                ("error", JString (err_message error))])
           end
       | None => Normal (JObject [("rawResponse", JString text); ("parsed", JBool false)])
       end.
Proof.
  split.
  - unfold match_braces.
    pose proof (after_first_spec "{" text) as Hfirst.
    destruct (after_first "{" text) as [rest|] eqn:Haf.
    + destruct Hfirst as (pre & -> & Hpre).
      pose proof (through_last_spec "}" rest) as Hlast.
      destruct (through_last "}" rest) as [p|] eqn:Htl.
      * destruct Hlast as (body & post & -> & -> & Hpost).
        exists pre, body, post. simpl. repeat split; assumption.
      * intros pre' rest' Heq.
        destruct (after_first_suffix "{" pre' rest') as [mid Hmid].
        simpl in Heq. rewrite <- Heq, Haf in Hmid. injection Hmid as ->.
        rewrite has_char_app in Hlast. apply orb_false_iff in Hlast. apply Hlast.
    + intros pre rest Heq. rewrite Heq in Hfirst. simpl in Hfirst.
      rewrite has_char_app in Hfirst. simpl in Hfirst.
      rewrite orb_true_r in Hfirst. discriminate.
  - unfold parseGeminiResponse, call_match, ctry, cbind.
    destruct (match_braces text) as [m|]; [|reflexivity].
    destruct (JSON_parse m); reflexivity.
Qed.

(** C1, as stated, fails: on a text with two objects the code takes
    everything from the first opening brace to the last closing brace, not
    the first balanced object; the match is no JSON text, so the response
    ends as the degraded record although its first object is well formed. *)
Lemma extraction_is_not_first_balanced :
  spec_first_balanced_object two_objects_text = Some ("{" ++ quoted "healthScore" ++ ":90}")
  /\ match_braces two_objects_text = Some two_objects_text
  /\ match_braces two_objects_text <> spec_first_balanced_object two_objects_text
  /\ JSON_parse (JsRuntime := ref_runtime) ("{" ++ quoted "healthScore" ++ ":90}")
     = Normal (JObject [("healthScore", JNumber (Num.of_Z 90))])
  /\ fst (normalize (R := ref_runtime) (Normal (JString two_objects_text))
                    (JNumber Num.one) start)
     = Normal (degraded_record (JString two_objects_text)).
Proof.
  repeat split; try (vm_compute; reflexivity).
  vm_compute. discriminate.
Qed.

(* ================================================================= *)
(** ** Validation of the parsed object *)

Section Validation.
Context {R : JsRuntime}.

Lemma js_get_object (props : list (string * JsValue)) (key : string) :
  js_get (JObject props) key = Normal (prop props key).
Proof.
  unfold js_get, prop. destruct (own_property props key); reflexivity.
Qed.

(** The degraded branch: taken as soon as the object has a property
    [parsed] that is truthy or is [false]. *)
Lemma format_marked (props : list (string * JsValue)) (dayNumber : JsValue) :
  unmarked props = false ->
  formatAnalysisForStorage (JObject props) dayNumber =
    Normal (degraded_record (js_or (prop props "rawResponse") (JString "Analysis unavailable"))).
Proof.
  intros H. unfold formatAnalysisForStorage.
  rewrite !js_get_object. cbn [cbind]. fold (unmarked props). rewrite H.
  reflexivity.
Qed.

(** The validating branch, when both numbers can be read. *)
Lemma format_validated (props : list (string * JsValue)) (dayNumber : JsValue)
      (score days : Num.t) :
  unmarked props = true ->
  ToNumber (js_or (prop props "healthScore") (JNumber Num.fifty)) = Normal score ->
  ToNumber (js_or (prop props "nextPhotoDays") (JNumber Num.four)) = Normal days ->
  formatAnalysisForStorage (JObject props) dayNumber =
    Normal (mkAnalysis
              (Num.max Num.zero (Num.min Num.hundred score))
              (js_or (prop props "growthStage") (JString "unknown"))
              (array_or (prop props "issues") [])
              (js_or (prop props "observations") (JString "No observations available"))
              (array_or (prop props "recommendations") [JString "Monitor plant growth"])
              None
              (Num.max Num.one (Num.min Num.seven days))
              (urgency_or_routine (prop props "urgency"))).
Proof.
  intros H Hs Hd. unfold formatAnalysisForStorage.
  rewrite !js_get_object. cbn [cbind]. fold (unmarked props). rewrite H.
  unfold Math_min, Math_max. cbn [ToNumber cbind].
  rewrite Hs. cbn [cbind]. rewrite Hd. reflexivity.
Qed.

(** The validating branch, when reading a number throws. *)
Lemma format_throws (props : list (string * JsValue)) (dayNumber : JsValue) (e : JsError) :
  unmarked props = true ->
  ToNumber (js_or (prop props "healthScore") (JNumber Num.fifty)) = Throw e
  \/ (exists score,
         ToNumber (js_or (prop props "healthScore") (JNumber Num.fifty)) = Normal score
         /\ ToNumber (js_or (prop props "nextPhotoDays") (JNumber Num.four)) = Throw e) ->
  formatAnalysisForStorage (JObject props) dayNumber = Throw e.
Proof.
  intros H Hcase. unfold formatAnalysisForStorage.
  rewrite !js_get_object. cbn [cbind]. fold (unmarked props). rewrite H.
  unfold Math_min, Math_max. cbn [ToNumber cbind].
  destruct Hcase as [Hs | (score & Hs & Hd)].
  - rewrite Hs. reflexivity.
  - rewrite Hs. cbn [cbind]. rewrite Hd. reflexivity.
Qed.

End Validation.

Lemma array_or_not_array (v : JsValue) (d : list JsValue) :
  isArray v = false -> array_or v d = d.
Proof.
  destruct v; simpl; intros H; try reflexivity; discriminate.
Qed.

(** C9 (as the code has it).  For an object parsed out of the response,
    without the marker [parsed], whose [recommendations] field is not an
    array: when the validation returns, the normalizer returns its record,
    in which the recommendations are the one-element array
    ['Monitor plant growth'] (it is [issues] that falls back to the empty
    array).  The validation throws only when reading [healthScore] or
    [nextPhotoDays] as a number throws; the normalizer then returns the
    unavailable record, whose recommendations are
    ['Upload photo again', 'Check image quality']. *)
Theorem recommendations_default_is_monitor {R : JsRuntime}
        (raw : JsValue) (props : list (string * JsValue)) (dayNumber : JsValue) (w : World) :
  parseGeminiResponse raw = Normal (JObject props) ->
  unmarked props = true ->
  isArray (prop props "recommendations") = false ->
  match formatAnalysisForStorage (JObject props) dayNumber with
  | Normal a =>
      normalize (Normal raw) dayNumber w = (Normal a, w)
      /\ recommendations a = [JString "Monitor plant growth"]
      /\ (isArray (prop props "issues") = false -> issues a = [])
  | Throw e =>
      (ToNumber (js_or (prop props "healthScore") (JNumber Num.fifty)) = Throw e
       \/ ToNumber (js_or (prop props "nextPhotoDays") (JNumber Num.four)) = Throw e)
      /\ normalize (Normal raw) dayNumber w = (Normal (unavailable_record (now w)), w)
      /\ recommendations (unavailable_record (now w))
         = [JString "Upload photo again"; JString "Check image quality"]
  end.
Proof.
  intros Hparse Hun Hrec.
  assert (Hrun : normalize (Normal raw) dayNumber w =
                 match formatAnalysisForStorage (JObject props) dayNumber with
                 | Normal a => (Normal a, w)
                 | Throw _ => (Normal (unavailable_record (now w)), w)
                 end).
  { unfold normalize, try_catch, bind, lift, Date_now, ret. rewrite Hparse.
    destruct (formatAnalysisForStorage (JObject props) dayNumber); reflexivity. }
  destruct (ToNumber (js_or (prop props "healthScore") (JNumber Num.fifty)))
    as [score|e] eqn:Hs.
  - destruct (ToNumber (js_or (prop props "nextPhotoDays") (JNumber Num.four)))
      as [days|e] eqn:Hd.
    + rewrite (format_validated props dayNumber score days Hun Hs Hd) in *.
      split; [exact Hrun|].
      cbn [recommendations issues]. split.
      * apply array_or_not_array; exact Hrec.
      * apply array_or_not_array.
    + rewrite (format_throws props dayNumber e Hun) in *
        by (right; exists score; split; [exact Hs | exact Hd]).
      split; [right; reflexivity|]. split; [exact Hrun | reflexivity].
  - rewrite (format_throws props dayNumber e Hun) in * by (left; exact Hs).
    split; [left; reflexivity|]. split; [exact Hrun | reflexivity].
Qed.

Lemma recommendations_default_is_monitor_witness :
  exists a,
    normalize (R := ref_runtime) (Normal (JString text_recommendation)) (JNumber Num.one) start
    = (Normal a, start)
    /\ recommendations a = [JString "Monitor plant growth"]
    /\ (isArray (prop [("healthScore", JNumber (Num.of_Z 80));
                       ("recommendations", JString "water daily")] "issues") = false ->
        issues a = []).
Proof.
  eexists.
  apply (recommendations_default_is_monitor (R := ref_runtime)
           (JString text_recommendation)
           [("healthScore", JNumber (Num.of_Z 80)); ("recommendations", JString "water daily")]
           (JNumber Num.one) start); reflexivity.
Defined.

(** C9, as stated, fails: the response
    [{"healthScore":80,"recommendations":"water daily"}] is normalized to a
    record whose recommendations are ['Monitor plant growth'], not the empty
    array. *)
Lemma recommendations_default_is_not_empty :
  exists a,
    fst (normalize (R := ref_runtime) (Normal (JString text_recommendation))
                   (JNumber Num.one) start) = Normal a
    /\ recommendations a = [JString "Monitor plant growth"]
    /\ recommendations a <> [].
Proof.
  eexists. split; [vm_compute; reflexivity|].
  split; [reflexivity | discriminate].
Qed.

(** C10.  When the object parsed out of the response has itself a property
    [parsed] that is [true] or [false], the normalizer returns the degraded
    record (healthScore 50, growthStage 'unknown', issues
    ['Unable to parse AI response']) and none of the other fields of the
    object is looked at, except [rawResponse] for the observations. *)
Theorem parsed_field_gives_degraded_record {R : JsRuntime}
        (text m : string) (props : list (string * JsValue)) (b : bool)
        (dayNumber : JsValue) (w : World) :
  match_braces text = Some m ->
  JSON_parse m = Normal (JObject props) ->
  own_property props "parsed" = Some (JBool b) ->
  exists a,
    normalize (Normal (JString text)) dayNumber w = (Normal a, w)
    /\ a = degraded_record (js_or (prop props "rawResponse") (JString "Analysis unavailable"))
    /\ healthScore a = Num.fifty
    /\ growthStage a = JString "unknown"
    /\ issues a = [JString "Unable to parse AI response"].
Proof.
  intros Hm Hparse Hmark.
  exists (degraded_record (js_or (prop props "rawResponse") (JString "Analysis unavailable"))).
  split; [|repeat split].
  unfold normalize, try_catch, bind, lift.
  unfold parseGeminiResponse, call_match, ctry, cbind. rewrite Hm, Hparse.
  rewrite format_marked; [reflexivity|].
  unfold unmarked, prop. rewrite Hmark. destruct b; reflexivity.
Qed.

Lemma parsed_field_gives_degraded_record_witness :
  exists a,
    normalize (R := ref_runtime) (Normal (JString marked_text)) (JNumber Num.one) start
      = (Normal a, start)
    /\ a = degraded_record (JString "Analysis unavailable")
    /\ healthScore a = Num.fifty
    /\ growthStage a = JString "unknown"
    /\ issues a = [JString "Unable to parse AI response"].
Proof.
  apply (parsed_field_gives_degraded_record (R := ref_runtime) marked_text marked_text
           [("parsed", JBool true); ("healthScore", JNumber (Num.of_Z 90));
            ("growthStage", JString "flowering")] true (JNumber Num.one) start).
  - reflexivity.
  - vm_compute. reflexivity.
  - reflexivity.
Defined.

(* ================================================================= *)
(** ** The health score *)

(** A number that is not NaN is clamped into [0, 100]. *)
Lemma clamp_within (x : Num.t) :
  Num.is_nan x = false ->
  Num.within Num.zero Num.hundred (Num.max Num.zero (Num.min Num.hundred x)) = true.
Proof.
  intros Hnan. unfold Num.min.
  replace (Num.is_nan Num.hundred || Num.is_nan x) with false
    by (rewrite Hnan; reflexivity).
  destruct (Num.ltb Num.hundred x) eqn:H1; [reflexivity|].
  destruct (Num.ltb x Num.hundred) eqn:H2; [|reflexivity].
  unfold Num.max, Num.within, Num.zero. rewrite Hnan. cbn [Num.is_nan orb].
  destruct (Num.ltb (S754_zero false) x) eqn:H3.
  - unfold Num.leb, Num.ltb, SFleb, SFltb in *.
    destruct (SFcompare (S754_zero false) x) as [[| |]|]; try discriminate.
    destruct (SFcompare x Num.hundred) as [[| |]|]; try discriminate.
    reflexivity.
  - destruct (Num.ltb x (S754_zero false)); [reflexivity|].
    destruct x; reflexivity.
Qed.

Section HealthScore.
Context {R : JsRuntime}.

(** A numeric health score other than zero and NaN is kept when it lies in
    [0, 100] and moved to the nearer bound otherwise. *)
Lemma numeric_healthScore_is_clamped (props : list (string * JsValue))
      (dayNumber : JsValue) (x days : Num.t) :
  unmarked props = true ->
  prop props "healthScore" = JNumber x ->
  Num.truthy x = true ->
  ToNumber (js_or (prop props "nextPhotoDays") (JNumber Num.four)) = Normal days ->
  exists a,
    formatAnalysisForStorage (JObject props) dayNumber = Normal a
    /\ healthScore a = Num.max Num.zero (Num.min Num.hundred x)
    /\ Num.within Num.zero Num.hundred (healthScore a) = true.
Proof.
  intros Hun Hx Ht Hd.
  eexists. split.
  - apply (format_validated props dayNumber x days Hun); [|exact Hd].
    rewrite Hx. unfold js_or. cbn [truthy]. rewrite Ht. reflexivity.
  - cbn [healthScore]. split; [reflexivity|].
    apply clamp_within. unfold Num.truthy in Ht.
    destruct (Num.is_nan x); [|reflexivity].
    rewrite orb_true_r in Ht. discriminate.
Qed.

(** A health score of zero is falsy: it is replaced by 50 like a missing
    one. *)
Lemma zero_healthScore_becomes_fifty (props : list (string * JsValue))
      (dayNumber : JsValue) (sign : bool) (days : Num.t) :
  unmarked props = true ->
  prop props "healthScore" = JNumber (S754_zero sign) ->
  ToNumber (js_or (prop props "nextPhotoDays") (JNumber Num.four)) = Normal days ->
  exists a,
    formatAnalysisForStorage (JObject props) dayNumber = Normal a
    /\ healthScore a = Num.fifty.
Proof.
  intros Hun Hx Hd.
  eexists. split.
  - apply (format_validated props dayNumber Num.fifty days Hun); [|exact Hd].
    rewrite Hx. reflexivity.
  - reflexivity.
Qed.

End HealthScore.

(** C3 fails on the code.  The response [{"healthScore":0}] is normalized to
    healthScore 50, not 0; [{"healthScore":"high"}] to NaN, which is
    outside [0, 100], not to 50; and [{"healthScore":true}] to 1. *)
Theorem healthScore_zero_and_non_numeric :
  (exists a,
      fst (normalize (R := ref_runtime) (Normal (JString zero_score_text))
                     (JNumber Num.one) start) = Normal a
      /\ healthScore a = Num.fifty)
  /\ (exists a,
         fst (normalize (R := ref_runtime) (Normal (JString word_score_text))
                        (JNumber Num.one) start) = Normal a
         /\ healthScore a = Num.NaN
         /\ Num.within Num.zero Num.hundred (healthScore a) = false)
  /\ (exists a,
         fst (normalize (R := ref_runtime) (Normal (JString true_score_text))
                        (JNumber Num.one) start) = Normal a
         /\ healthScore a = Num.one).
Proof.
  split; [|split]; eexists; (split; [vm_compute; reflexivity|]);
    repeat split; reflexivity.
Qed.

(* ================================================================= *)
(** ** The normalizer never throws *)

Section Normalizer.
Context {R : JsRuntime}.

Lemma parseGeminiResponse_total (raw : JsValue) :
  exists v, parseGeminiResponse raw = Normal v.
Proof.
  unfold parseGeminiResponse, ctry.
  match goal with |- context [match ?c with Normal _ => _ | Throw _ => _ end] =>
    destruct c end; eexists; reflexivity.
Qed.

Lemma parseGeminiResponse_unparsable (raw : JsValue) :
  unparsable raw = true ->
  exists extra, parseGeminiResponse raw = Normal (JObject (unparsed raw ++ extra)).
Proof.
  intros H. unfold parseGeminiResponse, ctry, call_match, cbind.
  destruct raw as [| | b | x | text | elems | props]; simpl in *;
    try (eexists; reflexivity).
  - destruct (match_braces text) as [m|].
    + destruct (JSON_parse m) as [v|e]; [discriminate|]. eexists. reflexivity.
    + exists []. reflexivity.
  - destruct (own_property props "match"); eexists; reflexivity.
Qed.

Lemma format_unparsed (raw : JsValue) (extra : list (string * JsValue)) (dayNumber : JsValue) :
  formatAnalysisForStorage (JObject (unparsed raw ++ extra)) dayNumber =
    Normal (degraded_record (js_or raw (JString "Analysis unavailable"))).
Proof.
  rewrite format_marked; reflexivity.
Qed.

(** The statements of [normalize] do not touch the world. *)
Lemma normalize_run (outcome : Completion JsValue) (dayNumber : JsValue) (w : World) :
  normalize outcome dayNumber w =
    match outcome with
    | Throw _ => (Normal (unavailable_record (now w)), w)
    | Normal raw =>
        match cbind (parseGeminiResponse raw)
                    (fun parsed => formatAnalysisForStorage parsed dayNumber) with
        | Normal a => (Normal a, w)
        | Throw _ => (Normal (unavailable_record (now w)), w)
        end
    end.
Proof.
  unfold normalize, try_catch, bind, lift, Date_now, ret.
  destruct outcome as [raw|e]; [|reflexivity].
  destruct (parseGeminiResponse raw) as [parsed|e]; simpl; [|reflexivity].
  destruct (formatAnalysisForStorage parsed dayNumber); reflexivity.
Qed.

(** [analyzeGrowthPhoto] is [normalize] applied to the outcome of the call,
    once the prompt is built. *)
Lemma analyzeGrowthPhoto_normalizes (env : ProcessEnv) (upstream : Upstream)
      (builder : JsValue -> JsValue -> JsValue -> JsValue -> Completion string)
      (cropId : JsValue) (imageBase64 : option string)
      (previousPhotoSummary cropInfo : JsValue) (w : World)
      (cropType dayNumber language : JsValue) (prompt : string) :
  let info := match cropInfo with JUndefined => JObject [] | _ => cropInfo end in
  let summary := match previousPhotoSummary with JUndefined => JNull
                                            | _ => previousPhotoSummary end in
  destructure info "cropType" (JString "unknown") = Normal cropType ->
  destructure info "dayNumber" (JNumber Num.one) = Normal dayNumber ->
  destructure info "language" (JString "en") = Normal language ->
  builder cropType dayNumber summary language = Normal prompt ->
  analyzeGrowthPhoto env upstream builder cropId imageBase64 previousPhotoSummary cropInfo w =
    normalize (fst (analyzeWithGemini env upstream prompt imageBase64
                      (mkOptions None None (Some "gemini-2.0-flash")) w))
              dayNumber
              (snd (analyzeWithGemini env upstream prompt imageBase64
                      (mkOptions None None (Some "gemini-2.0-flash")) w)).
Proof.
  intros info summary H1 H2 H3 H4.
  unfold analyzeGrowthPhoto. fold info summary.
  unfold try_catch, bind, lift. rewrite H1, H2, H3, H4.
  rewrite normalize_run.
  destruct (analyzeWithGemini env upstream prompt imageBase64
              (mkOptions None None (Some "gemini-2.0-flash")) w) as [[raw|e] w1];
    cbn [fst snd]; [|reflexivity].
  unfold cbind.
  destruct (parseGeminiResponse raw) as [parsed|e]; [|reflexivity].
  destruct (formatAnalysisForStorage parsed dayNumber); reflexivity.
Qed.

End Normalizer.

(** C4.  The normalizer returns a record on every outcome of the analysis
    call and leaves the world alone: the unavailable record when the call
    threw, the degraded record when nothing can be parsed out of the
    response, and in every other case the validated record or, when a field
    cannot be read as a number, again the unavailable record.  So
    [analyzeGrowthPhoto], the caller-facing operation around it, never
    throws. *)
Theorem normalize_never_throws {R : JsRuntime} (env : ProcessEnv) (upstream : Upstream)
        (builder : JsValue -> JsValue -> JsValue -> JsValue -> Completion string)
        (outcome : Completion JsValue) (dayNumber cropId : JsValue)
        (imageBase64 : option string) (previousPhotoSummary cropInfo : JsValue)
        (w : World) :
  (exists a,
      normalize outcome dayNumber w = (Normal a, w)
      /\ match outcome with
         | Throw _ => a = unavailable_record (now w)
         | Normal raw =>
             (unparsable raw = true ->
              a = degraded_record (js_or raw (JString "Analysis unavailable")))
             /\ (forall parsed,
                    parseGeminiResponse raw = Normal parsed ->
                    match formatAnalysisForStorage parsed dayNumber with
                    | Normal validated => a = validated
                    | Throw _ => a = unavailable_record (now w)
                    end)
         end)
  /\ (exists a w',
         analyzeGrowthPhoto env upstream builder cropId imageBase64
                            previousPhotoSummary cropInfo w = (Normal a, w')).
Proof.
  split.
  - rewrite normalize_run. destruct outcome as [raw|e].
    + destruct (parseGeminiResponse_total raw) as [parsed Hp].
      rewrite Hp. cbn [cbind].
      destruct (formatAnalysisForStorage parsed dayNumber) as [a|e] eqn:Hf.
      * exists a. split; [reflexivity|]. split.
        -- intros Hun. destruct (parseGeminiResponse_unparsable raw Hun) as [extra Hx].
           rewrite Hx in Hp. injection Hp as Heq. subst parsed.
           pose proof (format_unparsed raw extra dayNumber) as Hd.
           change (formatAnalysisForStorage (JObject (unparsed raw ++ extra)) dayNumber
                   = Normal a) in Hf.
           congruence.
        -- intros parsed' Hp'. injection Hp' as <-. rewrite Hf. reflexivity.
      * exists (unavailable_record (now w)). split; [reflexivity|]. split.
        -- intros Hun. destruct (parseGeminiResponse_unparsable raw Hun) as [extra Hx].
           rewrite Hx in Hp. injection Hp as Heq. subst parsed.
           pose proof (format_unparsed raw extra dayNumber) as Hd.
           change (formatAnalysisForStorage (JObject (unparsed raw ++ extra)) dayNumber
                   = Throw e) in Hf.
           congruence.
        -- intros parsed' Hp'. injection Hp' as <-. rewrite Hf. reflexivity.
    + exists (unavailable_record (now w)). split; reflexivity.
  - unfold analyzeGrowthPhoto.
    match goal with |- context [try_catch ?b _ w] =>
      destruct (catch_all_returns b w) as (a & Hrun & _) end.
    eexists. eexists. exact Hrun.
Qed.

(** Alone, [formatAnalysisForStorage] can throw: in
    [{"healthScore":{"toString":1}}] the score cannot be converted to a
    number.  Inside [normalize] the error is caught. *)
Lemma format_alone_can_throw :
  cbind (parseGeminiResponse (R := ref_runtime) (JString opaque_score_text))
        (fun parsed => formatAnalysisForStorage (R := ref_runtime) parsed (JNumber Num.one))
    = Throw (TypeError "Cannot convert object to primitive value")
  /\ normalize (R := ref_runtime) (Normal (JString opaque_score_text)) (JNumber Num.one) start
     = (Normal (unavailable_record (now start)), start).
Proof.
  split; vm_compute; reflexivity.
Qed.

(* ================================================================= *)
(** ** The scheduler *)

(** C5 (as the code has it).  The number of days and the urgency returned by
    [calculateNextPhotoDate] are determined by the analysis and the growth
    stage: they depend neither on the crop type nor on the clock, and the
    call does not change the world.  The date is the clock reading of the
    call moved forward by the number of days, so two calls return the same
    schedule whenever they read the same clock. *)
Theorem schedule_determined_up_to_clock {R : JsRuntime} (currentAnalysis : Analysis)
        (cropType cropType' growthStage : JsValue) (w w' : World) :
  days_and_urgency (fst (calculateNextPhotoDate currentAnalysis cropType growthStage w))
  = days_and_urgency (fst (calculateNextPhotoDate currentAnalysis cropType' growthStage w'))
  /\ (now w = now w' ->
      fst (calculateNextPhotoDate currentAnalysis cropType growthStage w)
      = fst (calculateNextPhotoDate currentAnalysis cropType' growthStage w'))
  /\ snd (calculateNextPhotoDate currentAnalysis cropType growthStage w) = w
  /\ (forall s,
        fst (calculateNextPhotoDate currentAnalysis cropType growthStage w) = Normal s ->
        sched_nextPhotoDate s
        = Date_setDate (new_Date (now w))
                       (Num.add (Date_getDate (new_Date (now w))) (sched_nextPhotoDays s))).
Proof.
  unfold calculateNextPhotoDate, bind, lift, Date_now, ret.
  destruct (some_critical (issues currentAnalysis)) as [hit|e]; cbn [fst snd].
  - match goal with |- context [adjust_for_stage ?b growthStage] =>
      destruct (adjust_for_stage b growthStage) as [days|e] end; cbn [fst snd].
    + repeat split.
      * intros ->. reflexivity.
      * intros s Hs. injection Hs as <-. reflexivity.
    + repeat split. intros s Hs. discriminate Hs.
  - repeat split. intros s Hs. discriminate Hs.
Qed.

(** C5, as stated, fails: the same analysis, crop type and growth stage give
    one date when the clock reads [start] and another one a day later; the
    days and the urgency are the same. *)
Lemma schedule_date_follows_the_clock :
  fst (calculateNextPhotoDate (R := ref_runtime) healthy_flowering
         (JString "tomato") (JString "flowering") start)
  = Normal (mkSchedule (DateAt (1762041600000 + 4 * 86400000)) Num.four "routine")
  /\ fst (calculateNextPhotoDate (R := ref_runtime) healthy_flowering
            (JString "tomato") (JString "flowering") a_day_later)
     = Normal (mkSchedule (DateAt (1762041600000 + 5 * 86400000)) Num.four "routine")
  /\ fst (calculateNextPhotoDate (R := ref_runtime) healthy_flowering
            (JString "tomato") (JString "flowering") start)
     <> fst (calculateNextPhotoDate (R := ref_runtime) healthy_flowering
               (JString "tomato") (JString "flowering") a_day_later).
Proof.
  split; [vm_compute; reflexivity|].
  split; [vm_compute; reflexivity|].
  vm_compute. discriminate.
Qed.

(* ================================================================= *)
(** ** The pipeline on concrete inputs *)

(** A fenced answer passes through: the object is found between the first
    and the last brace, the score 120 is capped at 100, the days 9 at 7, and
    one request was posted with the legacy key. *)
Example fenced_answer_is_validated :
  analyzeGrowthPhoto (R := ref_runtime) two_key_env (answering fenced_text) fixed_prompt
                     (JString "test_crop_id") (Some "aGVsbG8=") JUndefined JUndefined start
  = (Normal (mkAnalysis Num.hundred (JString "flowering")
                        [JString "Pest damage on {lower} leaves"]
                        (JString "Buds are opening.")
                        [JString "Monitor plant growth"] None Num.seven "urgent"),
     mkWorld 1762041600000 0
       [Post (generateContent_url "gemini-2.0-flash" "legacy-key")
             (build_payload "Analyze this plant." (Some "aGVsbG8=")
                            (Num.of_decimal false 4 (-1)) (Num.of_Z 4096))]).
Proof. vm_compute. reflexivity. Qed.

(** One failure, then an answer without braces: one pause of 1000 ms, two
    posts, and the degraded record with the answer as observations. *)
Example retry_then_degraded :
  let '(result, w) :=
    analyzeGrowthPhoto (R := ref_runtime) two_key_env (flaky "The plant looks fine.")
                       fixed_prompt (JString "test_crop_id") None JNull JUndefined start in
  result = Normal (degraded_record (JString "The plant looks fine."))
  /\ map (fun ev => match ev with Post _ _ => 0 | Sleep ms => ms end) (trace w) = [0; 1000; 0]
  /\ now w = now start + 1000.
Proof. vm_compute. repeat split; reflexivity. Qed.

(** The two scenarios of the scheduler: a healthy plant in flower is due in
    4 days (routine), a weak seedling with a pest in 3 days (important). *)
Example schedule_scenarios :
  days_and_urgency (fst (calculateNextPhotoDate (R := ref_runtime) healthy_flowering
                           (JString "tomato") (JString "flowering") start))
  = Normal (Num.four, "routine")
  /\ days_and_urgency (fst (calculateNextPhotoDate (R := ref_runtime) weak_seedling
                              (JString "tomato") (JString "germination") start))
     = Normal (Num.three, "important").
Proof. split; vm_compute; reflexivity. Qed.

(** The scheduler throws on an issue that is no string, and a growth stage
    named like a method of every object makes the days NaN. *)
Example schedule_corner_cases :
  fst (calculateNextPhotoDate (R := ref_runtime)
         (mkAnalysis (Num.of_Z 80) (JString "vegetative") [JNumber Num.one] JNull [] None
                     (Num.of_Z 4) "routine")
         (JString "tomato") (JString "vegetative") start)
  = Throw (TypeError "issue.toLowerCase is not a function")
  /\ fst (calculateNextPhotoDate (R := ref_runtime) healthy_flowering
            (JString "tomato") (JString "constructor") start)
     = Normal (mkSchedule InvalidDate Num.NaN "routine").
Proof. split; vm_compute; reflexivity. Qed.

(** The server's executor takes the first key of the pool and moves the
    counter. *)
Example callGeminiAPI_uses_the_pool :
  callGeminiAPI (R := ref_runtime) two_key_env (answering "Looks healthy.")
                "Analyze this plant." None start
  = (Normal (JString "Looks healthy."),
     mkWorld 1762041600000 1
       [Post (generateContent_url "gemini-2.5-flash" "key-one")
             (build_payload "Analyze this plant." None
                            (Num.of_decimal false 4 (-1)) (Num.of_Z 4096))]).
Proof. vm_compute. reflexivity. Qed.

(* ================================================================= *)
(** ** Further properties: extraction and parsing *)

Lemma after_first_found (c : ascii) (pre rest : string) :
  has_char c pre = false -> after_first c (pre ++ String c rest) = Some rest.
Proof.
  induction pre as [|a pre IH]; simpl.
  - intros _. rewrite Ascii.eqb_refl. reflexivity.
  - intros H. apply orb_false_iff in H. destruct H as [Ha Hp].
    rewrite Ha. apply IH, Hp.
Qed.

Lemma through_last_none (c : ascii) (s : string) :
  has_char c s = false -> through_last c s = None.
Proof.
  induction s as [|a s IH]; simpl; [reflexivity|].
  intros H. apply orb_false_iff in H. destruct H as [Ha Hs].
  rewrite (IH Hs), Ha. reflexivity.
Qed.

Lemma through_last_found (c : ascii) (body post : string) :
  has_char c post = false ->
  through_last c (body ++ String c post) = Some (body ++ String c EmptyString).
Proof.
  intros Hpost. induction body as [|a body IH]; simpl.
  - rewrite (through_last_none c post Hpost), Ascii.eqb_refl. reflexivity.
  - rewrite IH. reflexivity.
Qed.

(** X1.  An object that stands in a text with no opening brace in front of it
    and no closing brace behind it is extracted exactly, whatever braces it
    has inside; when it is a JSON text, its value is the result of
    [parseGeminiResponse]. *)
Theorem embedded_object_is_extracted {R : JsRuntime} (pre body post : string) :
  has_char "{" pre = false ->
  has_char "}" post = false ->
  match_braces (pre ++ "{" ++ body ++ "}" ++ post) = Some ("{" ++ body ++ "}")
  /\ forall v, JSON_parse ("{" ++ body ++ "}") = Normal v ->
               parseGeminiResponse (JString (pre ++ "{" ++ body ++ "}" ++ post)) = Normal v.
Proof.
  intros Hpre Hpost.
  assert (Hm : match_braces (pre ++ "{" ++ body ++ "}" ++ post) = Some ("{" ++ body ++ "}")).
  { unfold match_braces. simpl.
    rewrite (after_first_found "{" pre _ Hpre).
    rewrite (through_last_found "}" body post Hpost). reflexivity. }
  split; [exact Hm|].
  intros v Hv. unfold parseGeminiResponse, call_match, ctry, cbind.
  rewrite Hm, Hv. reflexivity.
Qed.

Lemma embedded_object_is_extracted_witness :
  match_braces (("```json" ++ newline) ++ "{" ++ (quoted "healthScore" ++ ": 85") ++ "}"
                  ++ (newline ++ "```"))
  = Some ("{" ++ (quoted "healthScore" ++ ": 85") ++ "}").
Proof.
  apply (embedded_object_is_extracted (R := ref_runtime) ("```json" ++ newline)
           (quoted "healthScore" ++ ": 85") (newline ++ "```")); reflexivity.
Defined.

(** X2.  [parseGeminiResponse] returns for every value.  The result is the
    value [JSON.parse] gave for the brace match of a text, and in every other
    case (no string, no match, a match that is no JSON) an object that holds
    the raw response and [parsed: false]. *)
Theorem parseGeminiResponse_parses_or_wraps {R : JsRuntime} (raw : JsValue) :
  exists v,
    parseGeminiResponse raw = Normal v
    /\ if unparsable raw
       then exists extra,
           v = JObject ([("rawResponse", raw); ("parsed", JBool false)] ++ extra)
           /\ prop ([("rawResponse", raw); ("parsed", JBool false)] ++ extra) "rawResponse" = raw
           /\ unmarked ([("rawResponse", raw); ("parsed", JBool false)] ++ extra) = false
       else exists text m,
           raw = JString text /\ match_braces text = Some m /\ JSON_parse m = Normal v.
Proof.
  destruct (unparsable raw) eqn:Hun.
  - destruct (parseGeminiResponse_unparsable raw Hun) as [extra Hx].
    eexists. split; [exact Hx|]. exists extra. repeat split.
  - destruct raw as [| | b | x | text | elems | props]; try discriminate.
    simpl in Hun. destruct (match_braces text) as [m|] eqn:Hm; [|discriminate].
    destruct (JSON_parse m) as [v|e] eqn:Hp; [|discriminate].
    exists v. split.
    + unfold parseGeminiResponse, call_match, ctry, cbind. rewrite Hm, Hp. reflexivity.
    + exists text, m. repeat split; assumption.
Qed.

(* ================================================================= *)
(** ** Further properties: the executors *)

Lemma one_attempt_run {R : JsRuntime} (upstream : Upstream) (url : string)
      (payload : Payload) (w : World) :
  one_attempt upstream url payload w
  = (attempt_result (upstream (posts_made (trace w)) url payload), posted url payload w).
Proof.
  unfold one_attempt, attempt_result, bind, axios_post, lift, posted.
  destruct (upstream (posts_made (trace w)) url payload) as [data|err]; [|reflexivity].
  destruct (response_text data); reflexivity.
Qed.

(** The three turns of the loop, written out. *)
Lemma attempt_loop_run {R : JsRuntime} (upstream : Upstream) (url : string)
      (payload : Payload) (w : World) :
  attempt_loop upstream url payload 3 None w =
    match attempt_result (upstream (posts_made (trace w)) url payload) with
    | Normal text => (Normal text, posted url payload w)
    | Throw _ =>
        match attempt_result (upstream (S (posts_made (trace w))) url payload) with
        | Normal text => (Normal text, posted url payload (slept 1000 (posted url payload w)))
        | Throw _ =>
            match attempt_result (upstream (S (S (posts_made (trace w)))) url payload) with
            | Normal text =>
                (Normal text,
                 posted url payload
                   (slept 2000 (posted url payload (slept 1000 (posted url payload w)))))
            | Throw last =>
                (Throw (Error ("Gemini API failed after 3 attempts: " ++ err_message last)),
                 posted url payload
                   (slept 2000 (posted url payload (slept 1000 (posted url payload w)))))
            end
        end
    end.
Proof.
  cbn [attempt_loop]. unfold try_catch at 1. rewrite one_attempt_run.
  destruct (attempt_result (upstream (posts_made (trace w)) url payload)) as [t1|e1];
    [reflexivity|].
  unfold bind at 1. cbn -[one_attempt try_catch bind posted slept setTimeout].
  change (setTimeout 1000 (posted url payload w))
    with (Normal tt, slept 1000 (posted url payload w)).
  cbn iota. unfold try_catch at 1. rewrite one_attempt_run.
  replace (posts_made (trace (slept 1000 (posted url payload w))))
    with (S (posts_made (trace w)))
    by (cbn [trace slept posted]; rewrite posts_made_sleep, posts_made_post; reflexivity).
  destruct (attempt_result (upstream (S (posts_made (trace w))) url payload)) as [t2|e2];
    [reflexivity|].
  unfold bind at 1. cbn -[one_attempt try_catch bind posted slept setTimeout].
  change (setTimeout 2000 (posted url payload (slept 1000 (posted url payload w))))
    with (Normal tt, slept 2000 (posted url payload (slept 1000 (posted url payload w)))).
  cbn iota. unfold try_catch at 1. rewrite one_attempt_run.
  replace (posts_made (trace (slept 2000 (posted url payload
                                 (slept 1000 (posted url payload w))))))
    with (S (S (posts_made (trace w))))
    by (cbn [trace slept posted];
        rewrite posts_made_sleep, posts_made_post, posts_made_sleep, posts_made_post;
        reflexivity).
  destruct (attempt_result (upstream (S (S (posts_made (trace w)))) url payload))
    as [t3|e3]; reflexivity.
Qed.

(** X3.  [analyzeWithGemini] stops at the first attempt that yields a text
    and returns that text: after one post when the first attempt succeeds,
    after two posts and a pause of 1000 ms when only the second does, after
    three posts and pauses of 1000 and 2000 ms when only the third does.
    Every attempt posts the same address and body, and the call never posts
    a fourth time. *)
Theorem analyze_stops_at_first_success {R : JsRuntime} (env : ProcessEnv)
        (upstream : Upstream) (prompt : string) (imageBase64 : option string)
        (options : Options) (w : World) :
  let url := generateContent_url (default (opt_model options) "gemini-2.0-flash")
                                 (env_text (GEMINI_API_KEY env)) in
  let payload := build_payload prompt imageBase64
                   (default (opt_temperature options) (Num.of_decimal false 4 (-1)))
                   (default (opt_maxTokens options) (Num.of_Z 4096)) in
  let n := posts_made (trace w) in
  let w1 := posted url payload w in
  let w2 := posted url payload (slept 1000 w1) in
  let w3 := posted url payload (slept 2000 w2) in
  analyzeWithGemini env upstream prompt imageBase64 options w =
    match attempt_result (upstream n url payload) with
    | Normal text => (Normal text, w1)
    | Throw _ =>
        match attempt_result (upstream (S n) url payload) with
        | Normal text => (Normal text, w2)
        | Throw _ =>
            match attempt_result (upstream (S (S n)) url payload) with
            | Normal text => (Normal text, w3)
            | Throw last =>
                (Throw (Error ("Gemini API failed after 3 attempts: " ++ err_message last)),
                 w3)
            end
        end
    end.
Proof.
  cbn zeta. unfold analyzeWithGemini. apply attempt_loop_run.
Qed.

(** X4.  [callGeminiAPI] of the server takes a key from the pool before it
    posts, so a failed call has used up a selection like a successful one;
    it posts once; and whatever made the attempt fail, the error it throws
    says 'AI analysis failed' and nothing of the cause. *)
Theorem callGeminiAPI_hides_the_cause {R : JsRuntime} (env : ProcessEnv)
        (upstream : Upstream) (prompt : string) (imageBase64 : option string) (w : World) :
  exists key w1,
    getNextApiKey env w = (Normal key, w1)
    /\ let url := generateContent_url "gemini-2.5-flash" (env_text key) in
       let payload := build_payload prompt imageBase64
                                    (Num.of_decimal false 4 (-1)) (Num.of_Z 4096) in
       callGeminiAPI env upstream prompt imageBase64 w =
         (match attempt_result (upstream (posts_made (trace w)) url payload) with
          | Normal text => Normal text
          | Throw _ => Throw (Error "AI analysis failed")
          end,
          posted url payload w1).
Proof.
  assert (Hkey : exists key w1, getNextApiKey env w = (Normal key, w1)
                                /\ trace w1 = trace w).
  { unfold getNextApiKey. destruct (apiKeys env); eexists; eexists; split; reflexivity. }
  destruct Hkey as (key & w1 & Hkey & Htr).
  exists key, w1. split; [exact Hkey|]. cbn zeta.
  unfold callGeminiAPI, bind at 1. rewrite Hkey.
  unfold try_catch. rewrite one_attempt_run, Htr.
  destruct (attempt_result _); reflexivity.
Qed.

(* ================================================================= *)
(** ** Further properties: the validated record *)

(** Clamping between two bounds other than zero. *)
Lemma clamp_between (lo hi x : Num.t) :
  Num.is_nan x = false ->
  Num.is_nan lo = false -> Num.is_nan hi = false ->
  Num.is_zero lo = false -> Num.is_zero hi = false ->
  Num.within lo hi lo = true -> Num.within lo hi hi = true ->
  Num.within lo hi (Num.max lo (Num.min hi x)) = true.
Proof.
  intros Hx Hlo Hhi Zlo Zhi Wlo Whi.
  assert (Hmax_hi : Num.within lo hi (Num.max lo hi) = true).
  { unfold Num.max. rewrite Hlo, Hhi. cbn [orb].
    destruct (Num.ltb lo hi); [exact Whi|].
    destruct (Num.ltb hi lo); [exact Wlo|].
    destruct lo as [[]| | |]; try discriminate; try exact Wlo;
      destruct hi; try discriminate; exact Wlo. }
  unfold Num.min. rewrite Hhi, Hx. cbn [orb].
  destruct (Num.ltb hi x) eqn:H1; [exact Hmax_hi|].
  destruct (Num.ltb x hi) eqn:H2.
  - unfold Num.max. rewrite Hlo, Hx. cbn [orb].
    destruct (Num.ltb lo x) eqn:H3.
    + unfold Num.within, Num.leb, Num.ltb, SFleb, SFltb in *.
      destruct (SFcompare lo x) as [[| |]|]; try discriminate.
      destruct (SFcompare x hi) as [[| |]|]; try discriminate.
      reflexivity.
    + destruct (Num.ltb x lo); [exact Wlo|].
      destruct lo as [[]| | |]; try discriminate; try exact Wlo;
        destruct x; try discriminate; exact Wlo.
  - replace (match hi with
             | S754_zero false => match x with S754_zero true => x | _ => hi end
             | _ => hi
             end) with hi; [exact Hmax_hi|].
    destruct hi as [[]| | |]; try discriminate; reflexivity.
Qed.

Lemma truthy_number_not_nan (x : Num.t) : Num.truthy x = true -> Num.is_nan x = false.
Proof.
  unfold Num.truthy. destruct (Num.is_nan x); [|reflexivity].
  rewrite orb_true_r. discriminate.
Qed.

(** A plain value read as a number with a default: no error, no NaN. *)
Lemma plain_or_default_number {R : JsRuntime} (v : JsValue) (d : Num.t) :
  plain v = true -> Num.truthy d = true ->
  exists x, ToNumber (js_or v (JNumber d)) = Normal x /\ Num.is_nan x = false.
Proof.
  intros Hp Hd. unfold js_or.
  destruct v as [| | [|] | x | s | l | o]; try discriminate; cbn [truthy ToNumber];
    try (exists d; split; [reflexivity | apply truthy_number_not_nan, Hd]).
  - exists Num.one. split; reflexivity.
  - destruct (Num.truthy x) eqn:Hx; cbn [ToNumber].
    + exists x. split; [reflexivity | apply truthy_number_not_nan, Hx].
    + exists d. split; [reflexivity | apply truthy_number_not_nan, Hd].
Qed.

(** X5.  When the fields [healthScore] and [nextPhotoDays] of the parsed
    object are numbers, booleans, [null] or missing, the validated record
    has a health score in [0, 100] and a number of days in [1, 7]: this
    covers every number, zero, NaN and the infinities included. *)
Theorem plain_numbers_stay_in_range {R : JsRuntime}
        (props : list (string * JsValue)) (dayNumber : JsValue) :
  unmarked props = true ->
  plain (prop props "healthScore") = true ->
  plain (prop props "nextPhotoDays") = true ->
  exists a,
    formatAnalysisForStorage (JObject props) dayNumber = Normal a
    /\ Num.within Num.zero Num.hundred (healthScore a) = true
    /\ Num.within Num.one Num.seven (nextPhotoDays a) = true.
Proof.
  intros Hun Hs Hd.
  destruct (plain_or_default_number (prop props "healthScore") Num.fifty Hs eq_refl)
    as (score & Hscore & Nscore).
  destruct (plain_or_default_number (prop props "nextPhotoDays") Num.four Hd eq_refl)
    as (days & Hdays & Ndays).
  eexists. split; [apply (format_validated props dayNumber score days Hun Hscore Hdays)|].
  cbn [healthScore nextPhotoDays]. split.
  - apply clamp_within, Nscore.
  - apply clamp_between; try reflexivity. exact Ndays.
Qed.

Lemma plain_numbers_stay_in_range_witness :
  exists a,
    formatAnalysisForStorage (R := ref_runtime)
      (JObject [("healthScore", JNumber (Num.of_Z (-40)));
                ("nextPhotoDays", JNumber (S754_infinity false))]) (JNumber Num.one)
    = Normal a
    /\ Num.within Num.zero Num.hundred (healthScore a) = true
    /\ Num.within Num.one Num.seven (nextPhotoDays a) = true.
Proof.
  apply (plain_numbers_stay_in_range (R := ref_runtime)
           [("healthScore", JNumber (Num.of_Z (-40)));
            ("nextPhotoDays", JNumber (S754_infinity false))] (JNumber Num.one));
    reflexivity.
Defined.

Lemma js_or_truthy (a b : JsValue) : truthy b = true -> truthy (js_or a b) = true.
Proof.
  intros H. unfold js_or. destruct (truthy a) eqn:Ha; assumption.
Qed.

Lemma urgency_or_routine_known (v : JsValue) :
  In (urgency_or_routine v) ["routine"; "important"; "critical"; "urgent"].
Proof.
  unfold urgency_or_routine. destruct v; try (left; reflexivity).
  destruct (existsb (String.eqb s) ["routine"; "important"; "critical"; "urgent"]) eqn:H;
    [|left; reflexivity].
  apply existsb_exists in H. destruct H as (x & Hin & Heq).
  apply String.eqb_eq in Heq. subst x. exact Hin.
Qed.

(** Whatever [formatAnalysisForStorage] returns has a known urgency and a
    growth stage and observations that are not empty. *)
Lemma format_result_is_well_formed {R : JsRuntime} (v dayNumber : JsValue) (a : Analysis) :
  formatAnalysisForStorage v dayNumber = Normal a ->
  In (urgency a) ["routine"; "important"; "critical"; "urgent"]
  /\ truthy (growthStage a) = true
  /\ truthy (observations a) = true.
Proof.
  unfold formatAnalysisForStorage, cbind.
  destruct (js_get v "parsed") as [parsed|]; [|discriminate].
  match goal with |- (if ?c then _ else _) = _ -> _ => destruct c end.
  - repeat match goal with
           | |- match ?c with Normal _ => _ | Throw _ => _ end = _ -> _ =>
               destruct c; [|discriminate]
           end.
    intros H. injection H as <-. cbn [urgency growthStage observations].
    split; [apply urgency_or_routine_known|].
    split; apply js_or_truthy; reflexivity.
  - destruct (js_get v "rawResponse"); [|discriminate].
    intros H. injection H as <-. cbn [urgency growthStage observations degraded_record].
    split; [right; left; reflexivity|].
    split; [reflexivity | apply js_or_truthy; reflexivity].
Qed.

(** X6.  On every outcome of the analysis call the record of the normalizer
    has an urgency that is 'routine', 'important', 'critical' or 'urgent',
    and a growth stage and observations that are neither missing nor empty,
    whatever the response held in these fields. *)
Theorem normalized_record_is_well_formed {R : JsRuntime}
        (outcome : Completion JsValue) (dayNumber : JsValue) (w : World) :
  exists a,
    normalize outcome dayNumber w = (Normal a, w)
    /\ In (urgency a) ["routine"; "important"; "critical"; "urgent"]
    /\ truthy (growthStage a) = true
    /\ truthy (observations a) = true.
Proof.
  rewrite normalize_run.
  assert (Hfail : In (urgency (unavailable_record (now w)))
                     ["routine"; "important"; "critical"; "urgent"]
                  /\ truthy (growthStage (unavailable_record (now w))) = true
                  /\ truthy (observations (unavailable_record (now w))) = true).
  { split; [right; left; reflexivity | split; reflexivity]. }
  destruct outcome as [raw|e]; [|eexists; split; [reflexivity | exact Hfail]].
  destruct (parseGeminiResponse_total raw) as [parsed Hp]. rewrite Hp. cbn [cbind].
  destruct (formatAnalysisForStorage parsed dayNumber) as [a|e] eqn:Hf.
  - exists a. split; [reflexivity|]. apply (format_result_is_well_formed _ _ _ Hf).
  - eexists. split; [reflexivity | exact Hfail].
Qed.

(* ================================================================= *)
(** ** Further properties: the key pool *)

Lemma keyIndex_in_range (counter : N) (keys : list string) :
  keys <> [] -> (N.to_nat (keyIndex counter keys) < List.length keys)%nat.
Proof.
  intros Hne. unfold keyIndex.
  assert (Hpos : (N.of_nat (List.length keys) <> 0)%N).
  { destruct keys; [congruence | simpl; lia]. }
  pose proof (N.mod_upper_bound (counter / ROTATION_INTERVAL)
                                (N.of_nat (List.length keys)) Hpos).
  lia.
Qed.

(** Selections in a row, from any counter: the keys they return and the
    counter they leave. *)
Lemma getNextApiKey_times {R : JsRuntime} (env : ProcessEnv) :
  apiKeys env <> [] ->
  forall (n : nat) (w : World),
    (rotationCounter w + N.of_nat n <= 2 ^ 53)%N ->
    times n (getNextApiKey env) w =
      (Normal (map (fun i : nat =>
                      nth_error (apiKeys env)
                        (N.to_nat (keyIndex (rotationCounter w + N.of_nat i) (apiKeys env))))
                   (seq 0 n)),
       mkWorld (now w) (rotationCounter w + N.of_nat n) (trace w)).
Proof.
  intros Hne n. induction n as [|n IH]; intros w Hle.
  - cbn [times seq map]. unfold ret. destruct w as [t c tr]. cbn [now rotationCounter trace].
    rewrite N.add_0_r. reflexivity.
  - cbn [times]. unfold bind at 1. rewrite (getNextApiKey_rotating env w Hne).
    assert (Hinc : increment (rotationCounter w) = (rotationCounter w + 1)%N).
    { unfold increment.
      destruct (N.ltb_spec (rotationCounter w) (2 ^ 53)) as [_|Hge]; [reflexivity|lia]. }
    rewrite Hinc. unfold bind at 1. rewrite IH by (cbn [rotationCounter]; lia).
    unfold ret. cbn [now rotationCounter trace]. f_equal.
    + f_equal. cbn [seq map]. rewrite N.add_0_r. f_equal.
      rewrite <- seq_shift, map_map. apply map_ext. intros i.
      do 3 f_equal. lia.
    + f_equal. lia.
Qed.

(** X7.  With a pool that is not empty, [n] selections in a row return the
    keys of the pool at the indices [floor((c + i) / 3) mod length], for
    [i] from 0 to [n - 1], where [c] is the rotation counter before the
    first of them, and leave the counter at [c + n] (as long as the counter
    stays within 2^53).  Every key so selected is a key of the pool, never
    [undefined] and never the legacy key.  The index is the same for the
    three counters [3 q], [3 q + 1] and [3 q + 2], so each key serves three
    selections in a row, and the index at [c + 3 * length] is the index at
    [c]: the rotation repeats after three selections per key. *)
Theorem rotation_stays_in_pool_and_repeats {R : JsRuntime} (env : ProcessEnv)
        (w : World) (n : nat) :
  apiKeys env <> [] ->
  (rotationCounter w + N.of_nat n <= 2 ^ 53)%N ->
  let keys := apiKeys env in
  let chosen := fun i : nat =>
    nth_error keys (N.to_nat (keyIndex (rotationCounter w + N.of_nat i) keys)) in
  times n (getNextApiKey env) w
  = (Normal (map chosen (seq 0 n)),
     mkWorld (now w) (rotationCounter w + N.of_nat n) (trace w))
  /\ (forall i, exists key, chosen i = Some key /\ In key keys)
  /\ (forall q r, (r < 3)%N ->
        keyIndex (3 * q + r) keys = (q mod N.of_nat (List.length keys))%N)
  /\ (forall c, keyIndex (c + 3 * N.of_nat (List.length keys)) keys = keyIndex c keys).
Proof.
  intros Hne Hle keys chosen.
  assert (Hpos : (N.of_nat (List.length keys) <> 0)%N).
  { unfold keys. destruct (apiKeys env); [congruence | simpl; lia]. }
  split; [|split; [|split]].
  - exact (getNextApiKey_times env Hne n w Hle).
  - intros i. unfold chosen.
    pose proof (keyIndex_in_range (rotationCounter w + N.of_nat i) keys Hne) as Hlt.
    destruct (nth_error keys (N.to_nat (keyIndex (rotationCounter w + N.of_nat i) keys)))
      as [key|] eqn:Hnth.
    + exists key. split; [reflexivity|]. apply (nth_error_In _ _ Hnth).
    + apply nth_error_None in Hnth. lia.
  - intros q r Hr. unfold keyIndex, ROTATION_INTERVAL. f_equal.
    rewrite N.mul_comm, N.add_comm, N.div_add by lia.
    rewrite (N.div_small r 3 Hr). reflexivity.
  - intros c. unfold keyIndex, ROTATION_INTERVAL.
    rewrite (N.mul_comm 3), N.div_add by lia.
    rewrite <- (N.mul_1_l (N.of_nat (List.length keys))) at 1.
    rewrite N.Div0.mod_add. reflexivity.
Qed.

Lemma rotation_stays_in_pool_and_repeats_witness :
  times 6 (getNextApiKey (R := ref_runtime) two_key_env) (mkWorld 0 4 [])
  = (Normal [Some "key-two"; Some "key-two"; Some "key-one"; Some "key-one";
             Some "key-one"; Some "key-two"],
     mkWorld 0 10 []).
Proof.
  apply (rotation_stays_in_pool_and_repeats (R := ref_runtime) two_key_env
           (mkWorld 0 4 []) 6).
  - discriminate.
  - vm_compute. discriminate.
Defined.

(** X8.  The pool holds values of [GEMINI_API_KEY_1] to [GEMINI_API_KEY_5]
    that are set and not blank: every key of the pool is one of these five
    values, is not empty and is not empty once trimmed, and the pool has at
    most five keys. *)
Theorem pool_keys_are_set_and_not_blank {R : JsRuntime} (env : ProcessEnv) (key : string) :
  In key (apiKeys env) ->
  In (Some key) [GEMINI_API_KEY_1 env; GEMINI_API_KEY_2 env; GEMINI_API_KEY_3 env;
                 GEMINI_API_KEY_4 env; GEMINI_API_KEY_5 env]
  /\ key <> EmptyString
  /\ String_trim key <> EmptyString
  /\ (List.length (apiKeys env) <= 5)%nat.
Proof.
  intros Hin.
  assert (Hlen : forall l : list (option string),
             (List.length (flat_map (fun k => if usable_key k then [env_text k] else []) l)
              <= List.length l)%nat).
  { induction l as [|k l IH]; simpl; [lia|].
    destruct (usable_key k); simpl; lia. }
  unfold apiKeys in *. apply in_flat_map in Hin. destruct Hin as (k & Hk & Hkey).
  destruct (usable_key k) eqn:Hu; [|contradiction].
  destruct Hkey as [Hkey|[]].
  destruct k as [text|]; [|discriminate]. simpl in Hkey. subst text.
  unfold usable_key in Hu. apply andb_true_iff in Hu. destruct Hu as [H1 H2].
  apply negb_true_iff in H1, H2. apply String.eqb_neq in H1, H2.
  repeat split; try assumption.
  specialize (Hlen [GEMINI_API_KEY_1 env; GEMINI_API_KEY_2 env; GEMINI_API_KEY_3 env;
                    GEMINI_API_KEY_4 env; GEMINI_API_KEY_5 env]).
  exact Hlen.
Qed.

Lemma pool_keys_are_set_and_not_blank_witness :
  String_trim (JsRuntime := ref_runtime) "key-two" <> EmptyString.
Proof.
  apply (pool_keys_are_set_and_not_blank (R := ref_runtime) two_key_env "key-two").
  right. left. reflexivity.
Defined.

(* ================================================================= *)
(** ** Further properties: the scheduler *)

Lemma shr_1_nonneg (r : shr_record) : 0 <= shr_m r -> 0 <= shr_m (shr_1 r).
Proof.
  destruct r as [m rb sb]. simpl. intros H.
  destruct m as [|p|p]; simpl; try lia; destruct p; simpl; lia.
Qed.

Lemma iter_shr_1_nonneg (p : positive) :
  forall r, 0 <= shr_m r -> 0 <= shr_m (iter_pos shr_1 p r).
Proof.
  induction p as [p IH|p IH|]; intros r H; simpl.
  - apply IH, IH, shr_1_nonneg, H.
  - apply IH, IH, H.
  - apply shr_1_nonneg, H.
Qed.

Lemma shr_fexp_nonneg (m e : Z) (l : location) :
  0 <= m -> 0 <= shr_m (fst (shr_fexp Num.prec Num.emax m e l)).
Proof.
  intros H. unfold shr_fexp, shr.
  assert (H0 : 0 <= shr_m (shr_record_of_loc m l)).
  { destruct l as [|[]]; simpl; exact H. }
  destruct (fexp Num.prec Num.emax (Zdigits2 m + e) - e); simpl; try exact H0.
  apply iter_shr_1_nonneg, H0.
Qed.

Lemma round_nearest_even_nonneg (m : Z) (l : location) :
  0 <= m -> 0 <= round_nearest_even m l.
Proof.
  intros H. unfold round_nearest_even. destruct l as [|[]]; try lia.
  destruct (Z.even m); lia.
Qed.

(** Rounding a mantissa never produces NaN. *)
Lemma binary_round_aux_not_nan (s : bool) (m e : Z) (l : location) :
  0 <= m -> Num.is_nan (binary_round_aux Num.prec Num.emax s m e l) = false.
Proof.
  intros H. unfold binary_round_aux.
  pose proof (shr_fexp_nonneg m e l H) as H1.
  destruct (shr_fexp Num.prec Num.emax m e l) as [mrs' e'] eqn:E1. simpl in H1.
  pose proof (shr_fexp_nonneg _ e' loc_Exact
                (round_nearest_even_nonneg _ (loc_of_shr_record mrs') H1)) as H2.
  destruct (shr_fexp Num.prec Num.emax
              (round_nearest_even (shr_m mrs') (loc_of_shr_record mrs')) e' loc_Exact)
    as [mrs'' e''] eqn:E2.
  simpl in H2.
  destruct (shr_m mrs'') as [|p|p]; try reflexivity; [|lia].
  destruct (e'' <=? Num.emax - Num.prec); reflexivity.
Qed.

Lemma binary_normalize_not_nan (m e : Z) (sz : bool) :
  Num.is_nan (binary_normalize Num.prec Num.emax m e sz) = false.
Proof.
  unfold binary_normalize, binary_round.
  destruct m as [|p|p]; try reflexivity.
  - destruct (shl_align p e _) as [mz ez]. apply binary_round_aux_not_nan. lia.
  - destruct (shl_align p e _) as [mz ez]. apply binary_round_aux_not_nan. lia.
Qed.

(** Adding or subtracting a finite number does not produce NaN. *)
Lemma add_not_nan (x y : Num.t) :
  Num.is_nan x = false -> is_finite y = true -> Num.is_nan (Num.add x y) = false.
Proof.
  intros Hx Hy. unfold Num.add, SFadd.
  destruct x as [sx|sx| |sx mx ex]; try discriminate;
    destruct y as [sy|sy| |sy my ey]; try discriminate; try reflexivity.
  - destruct sx, sy; reflexivity.
  - apply binary_normalize_not_nan.
Qed.

Lemma sub_not_nan (x y : Num.t) :
  Num.is_nan x = false -> is_finite y = true -> Num.is_nan (Num.sub x y) = false.
Proof.
  intros Hx Hy. unfold Num.sub, SFsub.
  destruct x as [sx|sx| |sx mx ex]; try discriminate;
    destruct y as [sy|sy| |sy my ey]; try discriminate; try reflexivity.
  - destruct sx, sy; reflexivity.
  - apply binary_normalize_not_nan.
Qed.

Lemma min_not_nan (a b : Num.t) :
  Num.is_nan a = false -> Num.is_nan b = false -> Num.is_nan (Num.min a b) = false.
Proof.
  intros Ha Hb. unfold Num.min. rewrite Ha, Hb. cbn [orb].
  destruct (Num.ltb a b); [exact Ha|]. destruct (Num.ltb b a); [exact Hb|].
  destruct a as [[]| | |]; try exact Ha; destruct b as [[]| | |]; try exact Ha; exact Hb.
Qed.

Lemma max_not_nan (a b : Num.t) :
  Num.is_nan a = false -> Num.is_nan b = false -> Num.is_nan (Num.max a b) = false.
Proof.
  intros Ha Hb. unfold Num.max. rewrite Ha, Hb. cbn [orb].
  destruct (Num.ltb a b); [exact Hb|]. destruct (Num.ltb b a); [exact Ha|].
  destruct a as [[]| | |]; try exact Ha; destruct b as [[]| | |]; try exact Ha; exact Hb.
Qed.

(** The two tables of the stages agree. *)
Lemma stage_adjustment_days (key : string) :
  assoc stageAdjustments key = option_map Num.of_Z (assoc stage_days key).
Proof.
  unfold stageAdjustments, stage_days. cbn [assoc].
  repeat match goal with |- context [String.eqb ?a key] => destruct (String.eqb a key) end;
    reflexivity.
Qed.

Lemma stage_days_values (key : string) (z : Z) :
  assoc stage_days key = Some z -> z = 1 \/ z = -1.
Proof.
  unfold stage_days. cbn [assoc].
  repeat match goal with |- context [String.eqb ?a key] => destruct (String.eqb a key) end;
    intros H; try discriminate; injection H as <-; auto.
Qed.

(** X9.  When [calculateNextPhotoDate] returns, its number of days lies in
    [1, 7], for every analysis, whatever numbers it holds; the one exception
    is a growth stage that names a property every object inherits
    ([constructor], [toString], ...), for which the days are NaN and the
    urgency 'routine'.  It throws only when an issue in front of the first
    critical one is no string, or when the growth stage has no string form. *)
Theorem schedule_days_in_range {R : JsRuntime} (currentAnalysis : Analysis)
        (cropType growthStage : JsValue) (w : World) :
  match fst (calculateNextPhotoDate currentAnalysis cropType growthStage w) with
  | Normal s =>
      exists key,
        ToPropertyKey growthStage = Normal key
        /\ if inherited key
           then sched_nextPhotoDays s = Num.NaN /\ sched_urgency s = "routine"
           else Num.within Num.one Num.seven (sched_nextPhotoDays s) = true
  | Throw e =>
      some_critical (issues currentAnalysis) = Throw e
      \/ ToPropertyKey growthStage = Throw e
  end.
Proof.
  unfold calculateNextPhotoDate, bind, lift, Date_now, ret.
  destruct (some_critical (issues currentAnalysis)) as [hit|e]; cbn [fst];
    [|left; reflexivity].
  set (b0 := if Num.truthy (nextPhotoDays currentAnalysis)
             then nextPhotoDays currentAnalysis else Num.four).
  set (b1 := if Num.ltb (healthScore currentAnalysis) Num.seventy
             then Num.max Num.one (Num.sub b0 Num.one) else b0).
  set (b2 := if hit then Num.min Num.two b1 else b1).
  assert (N0 : Num.is_nan b0 = false).
  { subst b0. destruct (Num.truthy (nextPhotoDays currentAnalysis)) eqn:Ht;
      [apply truthy_number_not_nan, Ht | reflexivity]. }
  assert (N1 : Num.is_nan b1 = false).
  { subst b1. destruct (Num.ltb (healthScore currentAnalysis) Num.seventy); [|exact N0].
    apply max_not_nan; [reflexivity | apply sub_not_nan; [exact N0 | reflexivity]]. }
  assert (N2 : Num.is_nan b2 = false).
  { subst b2. destruct hit; [apply min_not_nan; [reflexivity | exact N1] | exact N1]. }
  clearbody b2. clear b0 b1 N0 N1.
  unfold adjust_for_stage, cbind.
  destruct (ToPropertyKey growthStage) as [key|e]; cbn [fst]; [|right; reflexivity].
  pose proof (stage_adjustment_days key) as Hadj.
  destruct (assoc stageAdjustments key) as [adjustment|] eqn:Ha;
    [|destruct (existsb (String.eqb key) Object_prototype_names) eqn:He];
    cbn [fst]; exists key; (split; [reflexivity|]); unfold inherited; rewrite Ha;
    try rewrite He; cbn [sched_nextPhotoDays sched_urgency].
  - apply clamp_between; try reflexivity. apply add_not_nan; [exact N2|].
    destruct (assoc stage_days key) as [z|] eqn:Hz; [|discriminate].
    injection Hadj as ->. destruct (stage_days_values key z Hz); subst z; reflexivity.
  - split; reflexivity.
  - apply clamp_between; try reflexivity. apply add_not_nan; [exact N2 | reflexivity].
Qed.

(** On hints from 1 to 7 the scheduler computes as with integers. *)
Lemma float_days (h : Z) (weak critical : bool) (z : Z) :
  1 <= h <= 7 -> z = 0 \/ z = 1 \/ z = -1 ->
  let b := if weak then Num.max Num.one (Num.sub (Num.of_Z h) Num.one) else Num.of_Z h in
  let b := if critical then Num.min Num.two b else b in
  let finalDays := Num.max Num.one (Num.min Num.seven (Num.add b (Num.of_Z z))) in
  finalDays = Num.of_Z (integer_days h weak critical z)
  /\ (if Num.leb finalDays Num.two then "critical"
      else if Num.leb finalDays Num.three then "important" else "routine")
     = urgency_of_days (integer_days h weak critical z).
Proof.
  intros Hh Hz.
  assert (Hcases : h = 1 \/ h = 2 \/ h = 3 \/ h = 4 \/ h = 5 \/ h = 6 \/ h = 7) by lia.
  destruct Hcases as [->|[->|[->|[->|[->|[->| ->]]]]]];
    destruct Hz as [->|[->| ->]]; destruct weak, critical;
    vm_compute; split; reflexivity.
Qed.

(** X10.  For a hint of 1 to 7 days, issues that are strings and a growth
    stage that is a stage of the table or an unknown word, the scheduler
    computes in exact integers: one day less (not below 1) when the health
    score is below 70, at most 2 when an issue is critical, then plus one
    for germination and maturity and minus one for flowering and fruiting,
    kept within 1 and 7; the urgency is 'critical' up to 2 days,
    'important' for 3 and 'routine' above. *)
Theorem schedule_in_integers {R : JsRuntime} (currentAnalysis : Analysis)
        (cropType growthStage : JsValue) (w : World)
        (h : Z) (critical : bool) (key : string) :
  nextPhotoDays currentAnalysis = Num.of_Z h ->
  1 <= h <= 7 ->
  some_critical (issues currentAnalysis) = Normal critical ->
  ToPropertyKey growthStage = Normal key ->
  inherited key = false ->
  let days := integer_days h (Num.ltb (healthScore currentAnalysis) Num.seventy) critical
                           (default (assoc stage_days key) 0) in
  1 <= days <= 7
  /\ calculateNextPhotoDate currentAnalysis cropType growthStage w =
       (Normal (mkSchedule
                  (Date_setDate (new_Date (now w))
                                (Num.add (Date_getDate (new_Date (now w))) (Num.of_Z days)))
                  (Num.of_Z days) (urgency_of_days days)),
        w).
Proof.
  intros Hn Hh Hc Hk Hi. cbn zeta.
  split; [unfold integer_days; lia|].
  unfold calculateNextPhotoDate, bind, lift, Date_now, ret.
  rewrite Hc, Hn.
  assert (Ht : Num.truthy (Num.of_Z h) = true).
  { assert (Hcases : h = 1 \/ h = 2 \/ h = 3 \/ h = 4 \/ h = 5 \/ h = 6 \/ h = 7) by lia.
    destruct Hcases as [->|[->|[->|[->|[->|[->| ->]]]]]]; reflexivity. }
  rewrite Ht. unfold adjust_for_stage, cbind. rewrite Hk.
  unfold inherited in Hi. rewrite stage_adjustment_days in *.
  assert (Hz : default (assoc stage_days key) 0 = 0
               \/ default (assoc stage_days key) 0 = 1
               \/ default (assoc stage_days key) 0 = -1).
  { destruct (assoc stage_days key) as [z|] eqn:Hz; simpl; [|auto].
    destruct (stage_days_values key z Hz); auto. }
  pose proof (float_days h (Num.ltb (healthScore currentAnalysis) Num.seventy) critical
                         (default (assoc stage_days key) 0) Hh Hz) as Hfloat.
  cbn zeta in Hfloat. destruct Hfloat as [Hdays Hurg].
  destruct (assoc stage_days key) as [z|]; cbn [option_map default] in *.
  - rewrite Hurg, Hdays. reflexivity.
  - rewrite Hi. change Num.zero with (Num.of_Z 0). rewrite Hurg, Hdays. reflexivity.
Qed.

Lemma schedule_in_integers_witness :
  calculateNextPhotoDate (R := ref_runtime) weak_seedling (JString "tomato")
                         (JString "germination") start
  = (Normal (mkSchedule (DateAt (1762041600000 + 3 * 86400000)) (Num.of_Z 3) "important"),
     start).
Proof.
  apply (schedule_in_integers (R := ref_runtime) weak_seedling (JString "tomato")
           (JString "germination") start 4 true "germination");
    try reflexivity; lia.
Defined.

Lemma fallback_issue_is_not_critical {R : JsRuntime} (message : string) :
  includes (String_toLowerCase message) "disease" = false ->
  includes (String_toLowerCase message) "pest" = false ->
  includes (String_toLowerCase message) "dying" = false ->
  some_critical [JString message] = Normal false.
Proof.
  intros H1 H2 H3. simpl. rewrite H1, H2, H3. reflexivity.
Qed.

(** X11.  The two fallback records announce 3 days and the urgency
    'important', but the scheduler, run on them with their growth stage
    'unknown' as the route does, answers 2 days and 'critical': their health
    score of 50 is below 70, which takes one day off.  (The runtime has to
    lower the case of the two messages as ASCII does.) *)
Theorem fallback_records_are_scheduled_critical {R : JsRuntime}
        (at_ms : Z) (raw cropType : JsValue) (w : World) :
  lowers_fallback_messages ->
  let due := Date_setDate (new_Date (now w))
                          (Num.add (Date_getDate (new_Date (now w))) Num.two) in
  calculateNextPhotoDate (unavailable_record at_ms) cropType
                         (growthStage (unavailable_record at_ms)) w
    = (Normal (mkSchedule due Num.two "critical"), w)
  /\ calculateNextPhotoDate (degraded_record raw) cropType
                            (growthStage (degraded_record raw)) w
     = (Normal (mkSchedule due Num.two "critical"), w)
  /\ nextPhotoDays (unavailable_record at_ms) = Num.three
  /\ urgency (unavailable_record at_ms) = "important"
  /\ nextPhotoDays (degraded_record raw) = Num.three
  /\ urgency (degraded_record raw) = "important".
Proof.
  intros [Hfailed Hunable]. cbn zeta.
  split; [|split; [|repeat split]].
  - unfold calculateNextPhotoDate, bind, lift, Date_now, ret.
    cbn [issues unavailable_record].
    rewrite fallback_issue_is_not_critical by (rewrite Hfailed; reflexivity).
    reflexivity.
  - unfold calculateNextPhotoDate, bind, lift, Date_now, ret.
    cbn [issues degraded_record].
    rewrite fallback_issue_is_not_critical by (rewrite Hunable; reflexivity).
    reflexivity.
Qed.

Lemma fallback_records_are_scheduled_critical_witness :
  calculateNextPhotoDate (R := ref_runtime) (unavailable_record 1762041603000)
                         (JString "tomato") (JString "unknown") start
  = (Normal (mkSchedule (DateAt (1762041600000 + 2 * 86400000)) Num.two "critical"), start).
Proof.
  apply (fallback_records_are_scheduled_critical (R := ref_runtime) 1762041603000 JNull
           (JString "tomato") start).
  split; reflexivity.
Defined.

(* ================================================================= *)
(** ** Further properties: the route *)

Lemma calculateNextPhotoDate_keeps_world {R : JsRuntime} (a : Analysis)
      (cropType growthStage : JsValue) (w : World) :
  snd (calculateNextPhotoDate a cropType growthStage w) = w.
Proof.
  unfold calculateNextPhotoDate, bind, lift, Date_now, ret.
  destruct (some_critical (issues a)); [|reflexivity].
  match goal with |- context [adjust_for_stage ?b growthStage] =>
    destruct (adjust_for_stage b growthStage) end; reflexivity.
Qed.

Lemma lookup_removed (disk : Disk) (path : string) :
  lookup_file (remove_file disk path) path = None.
Proof.
  induction disk as [|[p bytes] disk IH]; simpl; [reflexivity|].
  destruct (String.eqb p path) eqn:Hp; simpl; [exact IH|].
  rewrite Hp. exact IH.
Qed.

Lemma lookup_other (disk : Disk) (path other : string) :
  other <> path -> lookup_file (remove_file disk path) other = lookup_file disk other.
Proof.
  intros Hne. induction disk as [|[p bytes] disk IH]; simpl; [reflexivity|].
  destruct (String.eqb p path) eqn:Hp; simpl.
  - apply String.eqb_eq in Hp. subst p.
    destruct (String.eqb path other) eqn:Ho; [|exact IH].
    apply String.eqb_eq in Ho. congruence.
  - rewrite IH. reflexivity.
Qed.

Lemma remove_absent (disk : Disk) (path : string) :
  lookup_file disk path = None -> remove_file disk path = disk.
Proof.
  induction disk as [|[p bytes] disk IH]; simpl; [reflexivity|].
  destruct (String.eqb p path); [discriminate|]. simpl. intros H. rewrite (IH H). reflexivity.
Qed.

Section Route.
Context {R : JsRuntime} (env : ProcessEnv) (upstream : Upstream).
Variable builder : JsValue -> JsValue -> JsValue -> JsValue -> Completion string.

Lemma request_analysis_returns (form : Form) (info : CropInfo) (bytes : string) (w : World) :
  exists a, request_analysis env upstream builder form info bytes w
            = (Normal a, snd (request_analysis env upstream builder form info bytes w)).
Proof.
  unfold request_analysis, analyzeGrowthPhoto.
  match goal with |- context [try_catch ?b ?h w] =>
    destruct (catch_all_returns b w) as (a & Hrun & _) end.
  exists a. rewrite Hrun at 1. f_equal. rewrite Hrun. reflexivity.
Qed.

(** A crop type that passes the validation is a text. *)
Lemma valid_crop_text (form : Form) :
  valid_crop form = true ->
  exists s, form_cropType form = JString s
            /\ truthy (form_cropType form) = true
            /\ existsb (String.eqb (String_toLowerCase s)) validCrops = true.
Proof.
  unfold valid_crop. intros H. apply andb_true_iff in H. destruct H as [Ht Hc].
  destruct (form_cropType form) as [| | | |s| |]; try discriminate.
  exists s. repeat split; assumption.
Qed.

(** A truthy crop type that is no text has no method [toLowerCase]. *)
Lemma toLowerCase_throws (cropType : JsValue) :
  truthy cropType = true ->
  (forall s, cropType <> JString s) ->
  toLowerCase cropType = Throw (TypeError "cropType.toLowerCase is not a function").
Proof.
  intros Ht Hs. destruct cropType as [| |b|x|s|elems|props]; try discriminate;
    try reflexivity.
  - exfalso. apply (Hs s). reflexivity.
  - unfold toLowerCase, js_get, cbind.
    match goal with |- context [own_property ?a ?b] => destruct (own_property a b) end;
      reflexivity.
Qed.

(** The handler behind its validation, step by step. *)
Lemma analyze_photo_run (form : Form) (path : string) (w : World) (disk : Disk) :
  valid_crop form = true ->
  analyze_photo env upstream builder form (Some path) (w, disk) =
    match lookup_file disk path with
    | None => (Normal (ServerError (no_such_file path)), (w, disk))
    | Some bytes =>
        match request_info form with
        | Throw e => (Normal (ServerError (err_message e)), (w, remove_file disk path))
        | Normal info =>
            match request_analysis env upstream builder form info bytes w with
            | (Normal a, w1) =>
                match fst (calculateNextPhotoDate a (JString (info_cropType info))
                                                  (growthStage a) w1) with
                | Normal s =>
                    (Normal (Success (report_of a) s info), (w1, remove_file disk path))
                | Throw e =>
                    (Normal (ServerError (err_message e)), (w1, remove_file disk path))
                end
            | (Throw e, w1) =>
                (Normal (ServerError (err_message e)), (w1, remove_file disk path))
            end
        end
    end.
Proof.
  intros Hvalid. destruct (valid_crop_text form Hvalid) as (s & Hs & Ht & Hc).
  unfold analyze_photo, request_info. rewrite Ht, Hs. cbn [negb toLowerCase cbind].
  unfold htry at 1, hbind at 1, in_world at 1, lift. cbn [fst snd].
  rewrite Hc. cbn [negb].
  unfold hbind at 1, readFileSync. cbn [snd fst].
  destruct (lookup_file disk path) as [bytes|] eqn:Hfile.
  - unfold hbind at 1, in_world at 1. cbn [fst snd].
    unfold hbind at 1, in_world at 1. cbn [fst snd].
    destruct (day_number (form_dayNumber form)) as [parsed|e].
    + cbn [cbind]. unfold hbind at 1, in_world at 1. cbn [fst snd].
      match goal with |- context [mkCropInfo ?a ?b ?c] => set (info := mkCropInfo a b c) end.
      fold (request_analysis env upstream builder form info bytes).
      destruct (request_analysis env upstream builder form info bytes w) as [[a|e] w1].
      * unfold hbind at 1, in_world at 1. cbn [fst snd].
        pose proof (calculateNextPhotoDate_keeps_world a
                      (JString (info_cropType info)) (growthStage a) w1) as Hw.
        destruct (calculateNextPhotoDate a (JString (info_cropType info))
                                         (growthStage a) w1) as [[sch|e] w2].
        -- cbn [fst snd] in *. subst w2.
           unfold hbind, unlinkSync, hret. cbn [fst snd]. rewrite Hfile. reflexivity.
        -- cbn [fst snd] in *. subst w2.
           unfold hbind, htry, unlinkSync, hret. cbn [fst snd]. rewrite Hfile. reflexivity.
      * unfold hbind, htry, unlinkSync, hret. cbn [fst snd]. rewrite Hfile. reflexivity.
    + cbn [cbind]. unfold hbind, htry, unlinkSync, hret. cbn [fst snd].
      rewrite Hfile. reflexivity.
  - unfold hbind, htry, unlinkSync, hret. cbn [fst snd]. rewrite Hfile. reflexivity.
Qed.



(** A crop type that is no text stops the handler at its validation. *)
Lemma analyze_photo_not_text (form : Form) (path : string) (w : World) (disk : Disk) :
  truthy (form_cropType form) = true ->
  (forall s, form_cropType form <> JString s) ->
  analyze_photo env upstream builder form (Some path) (w, disk)
  = (Normal (ServerError "cropType.toLowerCase is not a function"),
     (w, remove_file disk path)).
Proof.
  intros Ht Hs. unfold analyze_photo. rewrite Ht. cbn [negb].
  rewrite (toLowerCase_throws (form_cropType form) Ht Hs).
  unfold htry, hbind, in_world, lift, unlinkSync, hret. cbn [fst snd].
  destruct (lookup_file disk path) eqn:Hfile; cbn [fst snd err_message TypeError].
  - reflexivity.
  - rewrite (remove_absent disk path Hfile). reflexivity.
Qed.

(** X12.  The handler always answers.  It answers with status 400 exactly
    when the crop type is missing or empty, when no file came with the
    request, or when the crop type is a text that is, in lower case, none of
    the eight valid crops; the world and the disk are then as before: no
    request went to the provider, and an upload that came with an invalid
    crop type is still in the upload directory.  A crop type that is no text
    (an array or an object, from a repeated or bracketed field name) with a
    file is answered with status 500 and the message of the failed method
    call, nothing is posted, and the upload is removed.  Every other request
    that is not turned down is answered with status 200 or 500 and its
    upload is removed. *)
Theorem rejected_request_touches_nothing (form : Form) (file : option string)
        (st : World * Disk) :
  exists response st',
    analyze_photo env upstream builder form file st = (Normal response, st')
    /\ if refused form file
       then (exists error validTypes, response = BadRequest error validTypes) /\ st' = st
       else match file with
            | None => False
            | Some path =>
                snd st' = remove_file (snd st) path
                /\ if valid_crop form
                   then match response with BadRequest _ _ => False | _ => True end
                   else response = ServerError "cropType.toLowerCase is not a function"
                        /\ fst st' = fst st
            end.
Proof.
  destruct st as [w disk].
  destruct (valid_crop form) eqn:Hvalid.
  - destruct (valid_crop_text form Hvalid) as (s & Hs & Ht & Hc).
    destruct file as [path|].
    + assert (Hr : refused form (Some path) = false).
      { unfold refused. rewrite Ht, Hs, Hc. reflexivity. }
      rewrite Hr, (analyze_photo_run form path w disk Hvalid).
      destruct (lookup_file disk path) as [bytes|] eqn:Hfile.
      * destruct (request_info form) as [info|e].
        -- destruct (request_analysis_returns form info bytes w) as [a Ha]. rewrite Ha.
           match goal with |- context [fst ?c] => destruct (fst c) end;
             do 2 eexists; (split; [reflexivity|]); (split; [reflexivity | exact I]).
        -- do 2 eexists. split; [reflexivity|]. split; [reflexivity | exact I].
      * do 2 eexists. split; [reflexivity|]. cbn [snd]. split; [|exact I].
        symmetry. apply remove_absent. exact Hfile.
    + assert (Hr : refused form None = true).
      { unfold refused. rewrite Ht. reflexivity. }
      rewrite Hr. unfold analyze_photo, htry, hret. rewrite Ht. cbn.
      do 2 eexists. split; [reflexivity|]. split; [|reflexivity].
      do 2 eexists. reflexivity.
  - unfold valid_crop in Hvalid.
    destruct (truthy (form_cropType form)) eqn:Ht; cbn [andb] in Hvalid.
    + destruct file as [path|].
      * destruct (form_cropType form) as [| |b|x|s|elems|props] eqn:Hs;
          try discriminate Ht.
        -- assert (Hr : refused form (Some path) = false).
           { unfold refused. rewrite Hs, Ht. reflexivity. }
           rewrite Hr, (analyze_photo_not_text form path w disk)
             by (rewrite Hs; first [exact Ht | intros s0; discriminate]).
           do 2 eexists. split; [reflexivity|]. repeat split.
        -- assert (Hr : refused form (Some path) = false).
           { unfold refused. rewrite Hs, Ht. reflexivity. }
           rewrite Hr, (analyze_photo_not_text form path w disk)
             by (rewrite Hs; first [exact Ht | intros s0; discriminate]).
           do 2 eexists. split; [reflexivity|]. repeat split.
        -- assert (Hr : refused form (Some path) = true).
           { unfold refused. rewrite Hs, Ht, Hvalid. reflexivity. }
           rewrite Hr. unfold analyze_photo. rewrite Hs, Ht. cbn [negb toLowerCase].
           unfold htry, hbind, in_world, lift, hret. cbn [fst snd]. rewrite Hvalid.
           cbn [negb].
           do 2 eexists. split; [reflexivity|]. split; [|reflexivity].
           do 2 eexists. reflexivity.
        -- assert (Hr : refused form (Some path) = false).
           { unfold refused. rewrite Hs, Ht. reflexivity. }
           rewrite Hr, (analyze_photo_not_text form path w disk)
             by (rewrite Hs; first [exact Ht | intros s0; discriminate]).
           do 2 eexists. split; [reflexivity|]. repeat split.
        -- assert (Hr : refused form (Some path) = false).
           { unfold refused. rewrite Hs, Ht. reflexivity. }
           rewrite Hr, (analyze_photo_not_text form path w disk)
             by (rewrite Hs; first [exact Ht | intros s0; discriminate]).
           do 2 eexists. split; [reflexivity|]. repeat split.
      * assert (Hr : refused form None = true).
        { unfold refused. rewrite Ht. reflexivity. }
        rewrite Hr. unfold analyze_photo, htry, hret. rewrite Ht. cbn.
        do 2 eexists. split; [reflexivity|]. split; [|reflexivity].
        do 2 eexists. reflexivity.
    + assert (Hr : refused form file = true).
      { unfold refused. rewrite Ht. reflexivity. }
      rewrite Hr. unfold analyze_photo, htry, hret. rewrite Ht. cbn.
      do 2 eexists. split; [reflexivity|]. split; [|reflexivity].
      do 2 eexists. reflexivity.
Qed.

(** X13.  Once the crop type is valid, the upload is gone from the disk when
    the handler has answered, with status 200 or 500 alike, and every other
    file is as it was. *)
Theorem upload_is_removed (form : Form) (path : string) (w : World) (disk : Disk) :
  valid_crop form = true ->
  let disk' := snd (snd (analyze_photo env upstream builder form (Some path) (w, disk))) in
  disk' = remove_file disk path
  /\ lookup_file disk' path = None
  /\ (forall other, other <> path -> lookup_file disk' other = lookup_file disk other).
Proof.
  intros Hvalid disk'.
  assert (Hdisk : disk' = remove_file disk path).
  { unfold disk'. rewrite (analyze_photo_run form path w disk Hvalid).
    destruct (lookup_file disk path) as [bytes|] eqn:Hfile.
    - destruct (request_info form) as [info|e]; [|reflexivity].
      destruct (request_analysis_returns form info bytes w) as [a Ha]. rewrite Ha.
      match goal with |- context [fst ?c] => destruct (fst c) end; reflexivity.
    - cbn [snd]. symmetry. apply remove_absent. exact Hfile. }
  rewrite Hdisk. split; [reflexivity|]. split.
  - apply lookup_removed.
  - intros other Hne. apply lookup_other. exact Hne.
Qed.



End Route.

Lemma upload_is_removed_witness :
  lookup_file
    (snd (snd (analyze_photo (R := ref_runtime) two_key_env (answering fenced_text)
                             fixed_prompt tomato_form (Some "uploads/3f9a")
                             (start, upload_disk))))
    "uploads/3f9a" = None.
Proof.
  apply (upload_is_removed (R := ref_runtime) two_key_env (answering fenced_text)
           fixed_prompt tomato_form "uploads/3f9a" start upload_disk).
  reflexivity.
Defined.



(** A repeated field [cropType] arrives as an array: the method call of the
    validation throws, the upload is removed, and the answer has status
    500. *)
Example repeated_crop_type_is_a_server_error :
  analyze_photo (R := ref_runtime) two_key_env (answering fenced_text) fixed_prompt
                repeated_form (Some "uploads/3f9a") (start, upload_disk)
  = (Normal (ServerError "cropType.toLowerCase is not a function"),
     (start, [("uploads/77c1", "other")])).
Proof. vm_compute. reflexivity. Qed.

(* ================================================================= *)
(** ** Further properties: the routes of the server *)

Lemma callGeminiAPI_run {R : JsRuntime} (env : ProcessEnv) (upstream : Upstream) (w : World) :
  exists key w1,
    getNextApiKey env w = (Normal key, w1)
    /\ forall prompt imageBase64,
         let url := generateContent_url "gemini-2.5-flash" (env_text key) in
         let payload := build_payload prompt imageBase64
                                      (Num.of_decimal false 4 (-1)) (Num.of_Z 4096) in
         callGeminiAPI env upstream prompt imageBase64 w =
           (match attempt_result (upstream (posts_made (trace w)) url payload) with
            | Normal text => Normal text
            | Throw _ => Throw (Error "AI analysis failed")
            end,
            posted url payload w1).
Proof.
  assert (Hkey : exists key w1, getNextApiKey env w = (Normal key, w1)
                                /\ trace w1 = trace w).
  { unfold getNextApiKey. destruct (apiKeys env); eexists; eexists; split; reflexivity. }
  destruct Hkey as (key & w1 & Hkey & Htr).
  exists key, w1. split; [exact Hkey|]. intros prompt imageBase64. cbn zeta.
  unfold callGeminiAPI, bind at 1. rewrite Hkey.
  unfold try_catch. rewrite one_attempt_run, Htr.
  destruct (attempt_result _); reflexivity.
Qed.

Section ServerRoutesFacts.
Context {R : JsRuntime} (env : ProcessEnv) (upstream : Upstream).
Variable getPlantAnalysisPrompt : JsValue -> JsValue -> JsValue -> Completion string.
Variable getProductAnalysisPrompt : JsValue -> Completion string.
Variable getDiseaseQueryPrompt : JsValue -> JsValue -> JsValue -> JsValue -> Completion string.

(** What follows the reading of the upload in the two image routes. *)
Lemma image_route_answers (prompt : Completion string) (path bytes : string)
      (key : option string) (w w1 : World) (disk : Disk) :
  lookup_file disk path = Some bytes ->
  getNextApiKey env w = (Normal key, w1) ->
  htry
    (prompt <- in_world (lift prompt) ;;
     result <- in_world (callGeminiAPI env upstream prompt (Some (Node.toBase64 bytes))) ;;
     unlinkSync path ;;;
     timestamp <- in_world Date_now ;;
     hret (Analysis200 result (new_Date timestamp)))%handler
    (fun error => (unlinkSync path ;;; hret (Status500 (err_message error)))%handler)
    (w, disk)
  = (Normal (fst (answer_after_one_call upstream Analysis200 prompt
                    (Some (Node.toBase64 bytes)) key w w1)),
     (snd (answer_after_one_call upstream Analysis200 prompt
             (Some (Node.toBase64 bytes)) key w w1),
      remove_file disk path)).
Proof.
  intros Hfile Hkey. unfold answer_after_one_call.
  destruct prompt as [p|e].
  - destruct (callGeminiAPI_run env upstream w) as (key' & w1' & Hkey' & Hcall).
    rewrite Hkey in Hkey'. injection Hkey' as <- <-.
    unfold htry, hbind at 1, in_world at 1, lift. cbn [fst snd].
    unfold hbind at 1, in_world at 1. cbn [fst snd]. rewrite Hcall.
    destruct (attempt_result _) as [text|e].
    + unfold hbind, unlinkSync, in_world, Date_now, hret. cbn [fst snd]. rewrite Hfile.
      reflexivity.
    + unfold hbind, unlinkSync, hret. cbn [fst snd]. rewrite Hfile. reflexivity.
  - unfold htry, hbind, in_world, lift, unlinkSync, hret. cbn [fst snd]. rewrite Hfile.
    reflexivity.
Qed.

(** X16.  [/consultation] always answers.  Without a plant name or without
    symptoms it answers with status 400 and nothing has happened: no key is
    taken from the pool and nothing is posted.  Otherwise the prompt the
    builder made of the four fields is posted once, without image, to the
    address with the key the selection returned, and the answer follows the
    outcome of that post: the text of the provider as advice, with the time
    of the answer, or status 500 with the message 'AI analysis failed'.
    Only an error of the prompt builder, before any selection or post, is
    reported with its own message. *)
Theorem consultation_answers_after_one_call (body : QueryBody) (w : World) :
  exists key w1,
    getNextApiKey env w = (Normal key, w1)
    /\ consultation env upstream getDiseaseQueryPrompt body w =
       if truthy (query_plant_name body) && truthy (query_symptoms body)
       then
         let prompt := getDiseaseQueryPrompt (query_plant_name body) (query_symptoms body)
                         (query_location body)
                         (js_or (query_language body) (JString "en")) in
         (Normal (fst (answer_after_one_call upstream Advice200 prompt None key w w1)),
          snd (answer_after_one_call upstream Advice200 prompt None key w w1))
       else (Normal (Status400 "Plant name and symptoms are required"), w).
Proof.
  destruct (callGeminiAPI_run env upstream w) as (key & w1 & Hkey & Hcall).
  exists key, w1. split; [exact Hkey|].
  unfold consultation, try_catch, answer_after_one_call.
  destruct (truthy (query_plant_name body)); cbn [negb orb andb];
    [destruct (truthy (query_symptoms body)); cbn [negb orb andb]|];
    try reflexivity.
  cbn zeta.
  destruct (getDiseaseQueryPrompt _ _ _ _) as [p|e].
  - unfold bind at 1, lift. unfold bind at 1. rewrite Hcall.
    destruct (attempt_result _) as [text|e]; reflexivity.
  - reflexivity.
Qed.

(** X17.  With the upload on the disk, [/analyze-plant] and [/analyze-spray]
    always answer, and the upload is removed whatever the answer.  The
    prompt is posted once, with the Base64 text of the upload, to the
    address with the key the selection returned, and the answer follows the
    outcome of that post: the text of the provider, with the time of the
    answer, or status 500 with the message 'AI analysis failed'.  Only an
    error of the prompt builder, before any selection or post, is reported
    with its own message.  [/analyze-plant] takes the product prompt when
    the analysis type is the text 'product' and the plant prompt otherwise;
    [/analyze-spray] always takes the product prompt. *)
Theorem image_routes_answer_and_clean_up (body : ImageBody) (path bytes : string)
        (w : World) (disk : Disk) :
  lookup_file disk path = Some bytes ->
  let language := js_or (image_language body) (JString "en") in
  let plant := if is_text (image_analysisType body) "product"
               then getProductAnalysisPrompt language
               else getPlantAnalysisPrompt language (image_location body)
                                           (image_temperature body) in
  let spray := getProductAnalysisPrompt language in
  let image := Some (Node.toBase64 bytes) in
  exists key w1,
    getNextApiKey env w = (Normal key, w1)
    /\ analyze_plant env upstream getPlantAnalysisPrompt getProductAnalysisPrompt
                     body (Some path) (w, disk)
       = (Normal (fst (answer_after_one_call upstream Analysis200 plant image key w w1)),
          (snd (answer_after_one_call upstream Analysis200 plant image key w w1),
           remove_file disk path))
    /\ analyze_spray env upstream getProductAnalysisPrompt body (Some path) (w, disk)
       = (Normal (fst (answer_after_one_call upstream Analysis200 spray image key w w1)),
          (snd (answer_after_one_call upstream Analysis200 spray image key w w1),
           remove_file disk path)).
Proof.
  intros Hfile language plant spray image.
  destruct (callGeminiAPI_run env upstream w) as (key & w1 & Hkey & _).
  exists key, w1. split; [exact Hkey|]. split.
  - unfold image. rewrite <- (image_route_answers plant path bytes key w w1 disk Hfile Hkey).
    unfold analyze_plant, htry at 1, hbind at 1, readFileSync.
    cbn [fst snd]. rewrite Hfile. reflexivity.
  - unfold image. rewrite <- (image_route_answers spray path bytes key w w1 disk Hfile Hkey).
    unfold analyze_spray, htry at 1, hbind at 1, readFileSync.
    cbn [fst snd]. rewrite Hfile. reflexivity.
Qed.

(** X18.  When the upload is not on the disk, [/analyze-plant] and
    [/analyze-spray] do not answer: reading the file fails, the cleanup in
    the [catch] fails in turn, and the handler throws the error of that
    cleanup.  Nothing was posted.  The route of the crop test, with its
    guarded cleanup, answers with status 500 at this point. *)
Theorem unreadable_upload_is_not_answered (body : ImageBody) (path : string)
        (w : World) (disk : Disk) :
  lookup_file disk path = None ->
  analyze_plant env upstream getPlantAnalysisPrompt getProductAnalysisPrompt
                body (Some path) (w, disk)
  = (Throw (Error (no_file_to_unlink path)), (w, disk))
  /\ analyze_spray env upstream getProductAnalysisPrompt body (Some path) (w, disk)
     = (Throw (Error (no_file_to_unlink path)), (w, disk)).
Proof.
  intros Hfile.
  unfold analyze_plant, analyze_spray, htry, hbind, readFileSync, unlinkSync.
  cbn [fst snd]. rewrite Hfile. cbn [fst snd]. rewrite Hfile. split; reflexivity.
Qed.

End ServerRoutesFacts.

Lemma image_routes_answer_and_clean_up_witness :
  exists key w1,
    getNextApiKey (R := ref_runtime) two_key_env start = (Normal key, w1)
    /\ analyze_plant (R := ref_runtime) two_key_env (answering fenced_text) plant_prompt
                     product_prompt leaf_body (Some "uploads/3f9a") (start, upload_disk)
       = (Normal (fst (answer_after_one_call (R := ref_runtime) (answering fenced_text)
                         Analysis200 (plant_prompt (JString "hi") (JString "Pune") JUndefined)
                         (Some "aGVsbG8=") key start w1)),
          (snd (answer_after_one_call (R := ref_runtime) (answering fenced_text)
                  Analysis200 (plant_prompt (JString "hi") (JString "Pune") JUndefined)
                  (Some "aGVsbG8=") key start w1),
           remove_file upload_disk "uploads/3f9a"))
    /\ analyze_spray (R := ref_runtime) two_key_env (answering fenced_text) product_prompt
                     leaf_body (Some "uploads/3f9a") (start, upload_disk)
       = (Normal (fst (answer_after_one_call (R := ref_runtime) (answering fenced_text)
                         Analysis200 (product_prompt (JString "hi"))
                         (Some "aGVsbG8=") key start w1)),
          (snd (answer_after_one_call (R := ref_runtime) (answering fenced_text)
                  Analysis200 (product_prompt (JString "hi"))
                  (Some "aGVsbG8=") key start w1),
           remove_file upload_disk "uploads/3f9a")).
Proof.
  apply (image_routes_answer_and_clean_up (R := ref_runtime) two_key_env
           (answering fenced_text) plant_prompt product_prompt leaf_body
           "uploads/3f9a" "hello" start upload_disk).
  reflexivity.
Defined.

(** The two image routes and the consultation on a provider that answers,
    with the first key of the pool. *)
Example server_routes_answer_with_the_text :
  fst (analyze_spray (R := ref_runtime) two_key_env (answering fenced_text) product_prompt
                     leaf_body (Some "uploads/3f9a") (start, upload_disk))
  = Normal (Analysis200 (JString fenced_text) (DateAt 1762041600000))
  /\ urls_posted (trace (fst (snd (analyze_spray (R := ref_runtime) two_key_env
                                     (answering fenced_text) product_prompt leaf_body
                                     (Some "uploads/3f9a") (start, upload_disk)))))
     = [generateContent_url "gemini-2.5-flash" "key-one"]
  /\ fst (consultation (R := ref_runtime) two_key_env failing_upstream query_prompt
                       wilt_body start)
     = Normal (Status500 "AI analysis failed")
  /\ rotationCounter (snd (consultation (R := ref_runtime) two_key_env failing_upstream
                                        query_prompt wilt_body start)) = 1%N.
Proof. vm_compute. repeat split. Qed.

Lemma unreadable_upload_is_not_answered_witness :
  analyze_plant (R := ref_runtime) two_key_env (answering fenced_text) plant_prompt
                product_prompt leaf_body (Some "uploads/missing") (start, upload_disk)
  = (Throw (Error (no_file_to_unlink "uploads/missing")), (start, upload_disk)).
Proof.
  apply (unreadable_upload_is_not_answered (R := ref_runtime) two_key_env
           (answering fenced_text) plant_prompt product_prompt leaf_body
           "uploads/missing" start upload_disk).
  reflexivity.
Defined.
